(** * systemd-motion: the session-idle monitor of [motion/core.py]

    A shallow embedding of the monitor: the configuration loader
    ([load_config]), the two session-state calls
    ([get_logind_idle_hint], [simulate_user_activity_session]) and the
    poll loop of [monitor] with its two locals [last_idle_state] and
    [idle_since].

    Wall-clock time ([time.time()], a Python float) is an exact rational
    number of seconds; the rounding of the float division by [60.0] is not
    modelled.  The answers of the outside world during one poll tick (the
    D-Bus replies, the clock, a fault raised by a logger call, an
    interrupted sleep) are the fields of a [tick] record, and the infinite
    [while True] loop is run on a finite list of ticks. *)

From Stdlib Require Import ZArith QArith Qround Bool List String Lia Lqa Sorted.
Import ListNotations.

Set Warnings "-register-all".

Local Open Scope Z_scope.

(** ** JSON values and the two Python conversions of [monitor] *)

(** What [json.loads] returns.  Floats are the finite ones. *)
Inductive json : Type :=
| JNull
| JBool (b : bool)
| JInt (n : Z)
| JFloat (q : Q)
| JString (s : string)
| JArray (l : list json)
| JObject (d : list (string * json)).

(** [dict.get(key, default)]; a dict is given by its items, each key once. *)
Fixpoint dict_get (d : list (string * json)) (key : string) (default : json) : json :=
  match d with
  | [] => default
  | (k, v) :: d' => if String.eqb k key then v else dict_get d' key default
  end.

(** [int(x)] on a float truncates toward zero. *)
Definition Qtrunc (q : Q) : Z := Z.quot (Qnum q) (Z.pos (Qden q)).

(** [bool(x)]: Python truthiness. *)
Definition py_bool (v : json) : bool :=
  match v with
  | JNull => false
  | JBool b => b
  | JInt n => negb (n =? 0)
  | JFloat q => negb (Qeq_bool q 0)
  | JString s => negb (String.eqb s EmptyString)
  | JArray l => match l with [] => false | _ => true end
  | JObject d => match d with [] => false | _ => true end
  end.

(** The configuration as [monitor] holds it after lines 91-93. *)
Record Configuration : Type := mkConfiguration {
  idle_minutes : Z;
  simulate_after_minutes : Z;
  simulate_activity : bool
}.

(** The literal returned at the end of [load_config]. *)
Definition default_config : json :=
  JObject [ ("idle_minutes"%string, JInt 10);
            ("simulate_after_minutes"%string, JInt 5);
            ("simulate_activity"%string, JBool false) ].

(** The state of [~/.config/systemd-motion/behavior.json]. *)
Inductive config_file : Type :=
| Missing                       (* config_path.exists() is False *)
| Unsearchable                  (* config_path.exists() raises PermissionError:
                                   a directory above the file cannot be
                                   searched *)
| Unreadable                    (* read_text() raises *)
| Content (text : string).      (* read_text() returns text *)

(** [config_path.exists()]: [None] when it raises.  [Path.exists] turns
    the errors of a missing file into [False] and lets the others through,
    [PermissionError] among them (Python 3.10 to 3.13). *)
Definition exists_ (f : config_file) : option bool :=
  match f with
  | Unsearchable => None
  | Missing => Some false
  | Unreadable | Content _ => Some true
  end.

Definition read_text (f : config_file) : option string :=
  match f with Content text => Some text | _ => None end.

Section Loader.

(** [json.loads]: [None] when it raises (the text is not valid JSON). *)
Variable json_loads : string -> option json.

(** [int(s)] on a string: [None] when it raises [ValueError]. *)
Variable int_of_string : string -> option Z.

(** Lines 24-35.  The test of line 26 is outside the [try]: what
    [config_path.exists()] raises leaves [load_config], and the result is
    [None]; the [try] of lines 27-30 covers [read_text] and [json.loads]
    only. *)
Definition load_config (f : config_file) : option json :=
  let fallback := default_config in
  match exists_ f with
  | None => None
  | Some true =>
      match read_text f with
      | Some text =>
          match json_loads text with
          | Some v => Some v
          | None => Some fallback
          end
      | None => Some fallback
      end
  | Some false => Some fallback
  end.

(** [int(x)]: [None] when it raises ([TypeError] or [ValueError]). *)
Definition py_int (v : json) : option Z :=
  match v with
  | JBool b => Some (if b then 1 else 0)
  | JInt n => Some n
  | JFloat q => Some (Qtrunc q)
  | JString s => int_of_string s
  | JNull | JArray _ | JObject _ => None
  end.

(** Lines 91-93 of [monitor].  [None]: one of the conversions raised, or
    [config] is not a dict and has no [get]. *)
Definition read_settings (config : json) : option Configuration :=
  match config with
  | JObject d =>
      match py_int (dict_get d "idle_minutes" (JInt 10)) with
      | Some im =>
          match py_int (dict_get d "simulate_after_minutes" (JInt 5)) with
          | Some sam =>
              Some (mkConfiguration im sam
                      (py_bool (dict_get d "simulate_activity" (JBool false))))
          | None => None
          end
      | None => None
      end
  | _ => None
  end.

End Loader.

(** ** Locals of the poll loop, log and trace *)

(** The two locals of [monitor] that live across iterations. *)
Record locals : Type := mkLocals {
  last_idle_state : option bool;
  idle_since : option Q
}.

(** Lines 107-108. *)
Definition initial : locals := mkLocals None None.

Inductive level : Type := WARNING | ERROR.

(** What one run does to the outside world, in order. *)
Inductive event : Type :=
| Log (lv : level) (msg : string)          (* a line of session.log *)
| Simulate (at_ : Q) (ok : option bool)    (* simulate_user_activity_session called
                                              on the tick whose clock read at_;
                                              ok is what it returned, None when
                                              the call was cancelled *)
| Sleep (secs : Z).                        (* asyncio.sleep(secs) *)

(** What a raise carries.  [except Exception] catches the first kind only. *)
Inductive exn : Type :=
| PyException (msg : string)     (* an instance of Exception; msg is str(e) *)
| Cancelled.                     (* CancelledError or KeyboardInterrupt:
                                    BaseException, not Exception *)

(** The outcome of the D-Bus exchange inside one of the two client calls. *)
Inductive reply (A : Type) : Type :=
| Reply (a : A)                  (* the exchange completed *)
| Fails (msg : string)           (* it raised an Exception *)
| Interrupts.                    (* the task was cancelled while awaiting *)
Arguments Reply {A} a.
Arguments Fails {A} msg.
Arguments Interrupts {A}.

(** The logger calls inside the [try] block of the loop. *)
Inductive site : Type :=
| AtLogIdle        (* line 130 *)
| AtLogSimFail     (* line 138 *)
| AtLogStatus.     (* line 144 *)

Definition site_eqb (a b : site) : bool :=
  match a, b with
  | AtLogIdle, AtLogIdle | AtLogSimFail, AtLogSimFail | AtLogStatus, AtLogStatus => true
  | _, _ => false
  end.

(** The outside world during one iteration. *)
Record tick : Type := mkTick {
  idle_hint_reply : reply bool;       (* the IdleHint property read *)
  time_time : Q;                      (* time.time() at line 117 *)
  simulate_reply : reply unit;        (* the SimulateUserActivity call *)
  fault : option (site * exn);        (* a logger call of the try block that
                                         raises, and what it raises *)
  handler_raises : option exn;        (* what the logger call of the handler,
                                         line 147, raises, if it does *)
  sleep_raises : option exn           (* what asyncio.sleep raises, if it does *)
}.

(** What [monitor] has set up before the loop: the import flag and whether
    each bus variable holds a connection (is truthy). *)
Record environment : Type := mkEnvironment {
  DBUS_AVAILABLE : bool;
  system_bus : bool;
  session_bus : bool
}.

(** ** A state, output and exception monad for the loop body *)

Inductive result (A : Type) : Type :=
| Val (a : A) (s : locals) (out : list event)
| Raise (e : exn) (s : locals) (out : list event).
Arguments Val {A} a s out.
Arguments Raise {A} e s out.

Definition M (A : Type) : Type := locals -> result A.

Definition ret {A} (a : A) : M A := fun s => Val a s [].

Definition bind {A B} (m : M A) (k : A -> M B) : M B :=
  fun s =>
    match m s with
    | Val a s1 out1 =>
        match k a s1 with
        | Val b s2 out2 => Val b s2 (out1 ++ out2)
        | Raise e s2 out2 => Raise e s2 (out1 ++ out2)
        end
    | Raise e s1 out1 => Raise e s1 out1
    end.

Definition raise {A} (e : exn) : M A := fun s => Raise e s [].
Definition emit (ev : event) : M unit := fun s => Val tt s [ev].
Definition get_idle_since : M (option Q) := fun s => Val (idle_since s) s [].
Definition get_last_idle_state : M (option bool) := fun s => Val (last_idle_state s) s [].
Definition set_idle_since (v : option Q) : M unit :=
  fun s => Val tt (mkLocals (last_idle_state s) v) [].
Definition set_last_idle_state (v : option bool) : M unit :=
  fun s => Val tt (mkLocals v (idle_since s)) [].

Declare Scope monitor_scope.
Delimit Scope monitor_scope with monitor.
Notation "x <- m ;; k" := (bind m (fun x => k))
  (at level 61, m at next level, right associativity) : monitor_scope.
Notation "m ;; k" := (bind m (fun _ => k))
  (at level 61, right associativity) : monitor_scope.
Notation "'when' c 'then_' m" := (if c then m else ret tt)
  (at level 60, c at level 9) : monitor_scope.

Local Open Scope monitor_scope.

(** ** The session-state client *)

(** [get_logind_idle_hint(bus)]: every Exception of the exchange is caught
    and turned into [None]. *)
Definition get_logind_idle_hint (env : environment) (t : tick) : M (option bool) :=
  if negb (DBUS_AVAILABLE env) then ret None
  else match idle_hint_reply t with
       | Reply value => ret (Some value)
       | Fails _ => ret None
       | Interrupts => raise Cancelled
       end.

(** [simulate_user_activity_session(bus)]; [now] only labels the trace. *)
Definition simulate_user_activity_session
    (env : environment) (t : tick) (now : Q) : M bool :=
  if negb (DBUS_AVAILABLE env) then emit (Simulate now (Some false)) ;; ret false
  else match simulate_reply t with
       | Reply _ => emit (Simulate now (Some true)) ;; ret true
       | Fails _ => emit (Simulate now (Some false)) ;; ret false
       | Interrupts => emit (Simulate now None) ;; raise Cancelled
       end.

(** A logger call of the [try] block: it writes its line unless the tick
    makes this call raise. *)
Definition logger_call (t : tick) (here : site) (lv : level) (msg : string) : M unit :=
  match fault t with
  | Some (where_, e) => if site_eqb where_ here then raise e else emit (Log lv msg)
  | None => emit (Log lv msg)
  end.

(** The logger call of the [except] handler, line 147.  It is the same
    logger as in the [try] block, called outside it: what it raises leaves
    the loop. *)
Definition handler_log (t : tick) (lv : level) (msg : string) : M unit :=
  match handler_raises t with
  | Some e => raise e
  | None => emit (Log lv msg)
  end.

(** [await asyncio.sleep(secs)] *)
Definition asyncio_sleep (t : tick) (secs : Z) : M unit :=
  emit (Sleep secs) ;;
  match sleep_raises t with
  | Some e => raise e
  | None => ret tt
  end.

(** ** The poll loop *)

(** [last_idle_state != idle_hint], an [Optional[bool]] against a [bool]. *)
Definition differs (last : option bool) (idle_hint : bool) : bool :=
  match last with
  | Some b => negb (Bool.eqb b idle_hint)
  | None => true
  end.

Definition check_interval_seconds : Z := 30.

(** Lines 113-144: the body of the [try] block. *)
Definition body (cfg : Configuration) (env : environment) (t : tick) : M unit :=
  idle_hint <- (if system_bus env then get_logind_idle_hint env t else ret None) ;;
  let now := time_time t in
  match idle_hint with
  | Some idle_hint =>
      (if idle_hint then
         since <- get_idle_since ;;
         match since with
         | None => set_idle_since (Some now)
         | Some _ => ret tt
         end
       else set_idle_since None) ;;
      last <- get_last_idle_state ;;
      when (differs last idle_hint) then_ (
        let state := (if idle_hint then "IDLE" else "ACTIVE")%string in
        when (String.eqb state "IDLE") then_
          (logger_call t AtLogIdle WARNING "Session idle detected") ;;
        set_last_idle_state (Some idle_hint)) ;;
      when (idle_hint && simulate_activity cfg && session_bus env) then_ (
        since <- get_idle_since ;;
        let idle_duration_minutes :=
          match since with
          | Some since => ((now - since) / 60)%Q
          | None => 0%Q
          end in
        when (Qle_bool (inject_Z (simulate_after_minutes cfg)) idle_duration_minutes) then_ (
          ok <- simulate_user_activity_session env t now ;;
          when (negb ok) then_
            (logger_call t AtLogSimFail ERROR "Activity simulation failed") ;;
          set_idle_since (Some now)))
  | None =>
      when (Qtrunc now mod 300 =? 0) then_
        (logger_call t AtLogStatus WARNING "Session monitor running (no D-Bus)")
  end.

(** [try: m except Exception as e: handler(str(e))] *)
Definition try_except {A} (m : M A) (handler : string -> M A) : M A :=
  fun s =>
    match m s with
    | Raise (PyException msg) s1 out1 =>
        match handler msg s1 with
        | Val a s2 out2 => Val a s2 (out1 ++ out2)
        | Raise e s2 out2 => Raise e s2 (out1 ++ out2)
        end
    | r => r
    end.

(** One pass of the [while True] loop, lines 112-149.  The logger call of
    the handler and the sleep are outside the [try] block. *)
Definition iteration (cfg : Configuration) (env : environment) (t : tick) : M unit :=
  try_except (body cfg env t)
    (fun msg => handler_log t ERROR ("Monitor error: " ++ msg)) ;;
  asyncio_sleep t check_interval_seconds.

(** The loop on the ticks given.  [Val]: still looping after the last of
    them.  [Raise]: an exception left the loop. *)
Fixpoint monitor_loop (cfg : Configuration) (env : environment) (ticks : list tick)
  : M unit :=
  match ticks with
  | [] => ret tt
  | t :: ticks' => iteration cfg env t ;; monitor_loop cfg env ticks'
  end.

Definition state_of {A} (r : result A) : locals :=
  match r with Val _ s _ | Raise _ s _ => s end.

Definition trace_of {A} (r : result A) : list event :=
  match r with Val _ _ out | Raise _ _ out => out end.

Definition running {A} (r : result A) : bool :=
  match r with Val _ _ _ => true | Raise _ _ _ => false end.

(** ** The whole of [monitor] *)

(** The two [MessageBus(...).connect()] calls of lines 101-102. *)
Inductive connection : Type :=
| Connects
| Refuses (msg : string).

(** How a call of [monitor] goes.  [setup_logging] is taken to succeed. *)
Inductive run : Type :=
| StartupRaises                  (* line 87 or lines 91-92 raised; [main]
                                    swallows it *)
| Returns (out : list event)     (* line 105 *)
| Loops (r : result unit).       (* the loop was entered *)

Section Monitor.

Variable json_loads : string -> option json.
Variable int_of_string : string -> option Z.

(** [monitor], lines 86-149.  [dbus_available] is [DBUS_AVAILABLE] of a
    module that was loaded: see [load_module]. *)
Definition monitor (f : config_file) (dbus_available : bool) (conn : connection)
    (ticks : list tick) : run :=
  match load_config json_loads f with
  | None => StartupRaises
  | Some config =>
      match read_settings int_of_string config with
      | None => StartupRaises
      | Some cfg =>
          if dbus_available then
            match conn with
            | Connects =>
                Loops (monitor_loop cfg (mkEnvironment true true true) ticks initial)
            | Refuses msg =>
                Returns [Log ERROR ("D-Bus connection failed: " ++ msg)]
            end
          else Loops (monitor_loop cfg (mkEnvironment false false false) ticks initial)
      end
  end.



End Monitor.

(** ** Observations on a trace *)

(** The calls of [simulate_user_activity_session]: clock of the tick and result. *)
Fixpoint simulate_calls (out : list event) : list (Q * option bool) :=
  match out with
  | [] => []
  | Simulate at_ ok :: out' => (at_, ok) :: simulate_calls out'
  | _ :: out' => simulate_calls out'
  end.

(** The lines written to the log. *)
Fixpoint log_lines (out : list event) : list (level * string) :=
  match out with
  | [] => []
  | Log lv msg :: out' => (lv, msg) :: log_lines out'
  | _ :: out' => log_lines out'
  end.

Definition is_idle_transition (ev : event) : bool :=
  match ev with
  | Log WARNING msg => String.eqb msg "Session idle detected"
  | _ => false
  end.

(** Number of idle-transition lines of a trace. *)
Definition idle_transitions (out : list event) : nat :=
  List.length (filter is_idle_transition out).



(** ** Notions of the specification *)

(** The value [idle_hint] takes on a tick: the sample, if the query gave one. *)
Definition sample (env : environment) (t : tick) : option bool :=
  if system_bus env && DBUS_AVAILABLE env then
    match idle_hint_reply t with
    | Reply value => Some value
    | _ => None
    end
  else None.

(** The most recent sample once a tick has passed; [prev] is the one before. *)
Definition newer (env : environment) (prev : option bool) (t : tick) : option bool :=
  match sample env t with Some b => Some b | None => prev end.

(** The most recent sample of a sequence of ticks. *)
Definition last_sample (env : environment) (ticks : list tick) : option bool :=
  fold_left (newer env) ticks None.

(** The query of the idle hint fails: no bus, or the exchange raised. *)
Definition query_fails (env : environment) (t : tick) : Prop :=
  system_bus env = false \/ DBUS_AVAILABLE env = false \/
  exists msg, idle_hint_reply t = Fails msg.

(** The idle period that line 134 measures on a tick, in seconds. *)
Definition idle_seconds (t : tick) (s : locals) : Q :=
  match idle_since s with
  | Some since => time_time t - since
  | None => 0
  end.

(** The simulate-activity threshold is crossed on a tick taken in state [s]:
    the sample is idle, simulation is on, the session bus is there and the
    idle period has reached [simulate_after_minutes]. *)
Definition threshold_crossed (cfg : Configuration) (env : environment)
    (t : tick) (s : locals) : Prop :=
  sample env t = Some true /\
  simulate_activity cfg = true /\
  session_bus env = true /\
  (inject_Z (simulate_after_minutes cfg) <= idle_seconds t s / 60)%Q.

(** Idle is the state last reported: [last_idle_state] is [True]. *)
Definition reported_idle (s : locals) : bool :=
  match last_idle_state s with
  | Some true => true
  | _ => false
  end.

(** Number of maximal runs of [true] in a list of samples; [prev] is the
    sample before the list. *)
Fixpoint runs_after (prev : bool) (samples : list bool) : nat :=
  match samples with
  | [] => O
  | b :: samples' =>
      ((if b && negb prev then 1 else 0) + runs_after b samples')%nat
  end.

Definition idle_runs (samples : list bool) : nat := runs_after false samples.



(** A tick without faults of its own: no logger call raises, no call is
    cancelled and the sleep returns. *)
Definition quiet (t : tick) : Prop :=
  fault t = None /\ simulate_reply t <> Interrupts /\ sleep_raises t = None.

(** ** Sample inputs *)

Definition simulation_on : Configuration := mkConfiguration 10 5 true.
Definition two_minutes : Configuration := mkConfiguration 5 2 true.
Definition with_dbus : environment := mkEnvironment true true true.

Definition idle_tick (now : Q) : tick :=
  mkTick (Reply true) now (Reply tt) None None None.
Definition active_tick (now : Q) : tick :=
  mkTick (Reply false) now (Reply tt) None None None.
Definition refused_tick (now : Q) : tick :=
  mkTick (Reply true) now (Fails "ScreenSaver not available") None None None.
Definition failed_query_tick (now : Q) : tick :=
  mkTick (Fails "D-Bus error") now (Reply tt) None None None.
Definition faulty_tick (now : Q) : tick :=
  mkTick (Reply true) now (Reply tt) (Some (AtLogIdle, PyException "disk full"))
    None None.


(** Idle samples every 30 seconds, from 30 to 270. *)
Definition continuous_idle : list tick :=
  map (fun k => idle_tick (inject_Z (30 * Z.of_nat k))) (seq 1 9).

(** The samples F,F,T,T,T,F,T; the call of the fourth tick is refused. *)
Definition seven_ticks : list tick :=
  [active_tick 0; active_tick 30; idle_tick 60; refused_tick 90;
   idle_tick 120; active_tick 150; idle_tick 180].


(** Idle since clock 0, and idle is the state last reported. *)
Definition idle_for_a_while : locals := mkLocals (Some true) (Some 0%Q).

(** Idle samples every 30 seconds from 0 to 270; every call is refused. *)
Definition refused_then_idle : list tick :=
  map (fun k => refused_tick (inject_Z (30 * Z.of_nat k))) (seq 0 10).

(** An object with the three keys among others, not in the order of the
    defaults. *)
Definition written_settings : list (string * json) :=
  [ ("simulate_activity"%string, JBool true);
    ("comment"%string, JString "set by hand");
    ("idle_minutes"%string, JInt 3);
    ("simulate_after_minutes"%string, JInt 1) ].

(** A stand-in for [json.loads] that knows three texts. *)
Definition one_object (text : string) : option json :=
  if String.eqb text "x" then Some (JObject written_settings)
  else if String.eqb text "y" then Some (JArray [])
  else if String.eqb text "z" then Some (JObject [("idle_minutes"%string, JNull)])
  else None.

(** Idle, two failed polls, idle, active, a failed poll, idle. *)
Definition idle_with_gaps : list tick :=
  [idle_tick 0; failed_query_tick 30; failed_query_tick 60; idle_tick 90;
   active_tick 120; failed_query_tick 150; idle_tick 180].

(** ** Further observations on a trace *)

(** The clocks of the calls of [simulate_user_activity_session]. *)
Definition call_clocks (out : list event) : list Q := map fst (simulate_calls out).

(** Each clock of the list comes [d] or more after the one before it, the
    first [d] or more after [last]. *)
Fixpoint spaced_from (d last : Q) (clocks : list Q) : Prop :=
  match clocks with
  | [] => True
  | c :: clocks' => (last + d <= c)%Q /\ spaced_from d c clocks'
  end.

Definition is_failure_line (l : level * string) : bool :=
  match l with
  | (ERROR, msg) => String.eqb msg "Activity simulation failed"
  | _ => false
  end.

(** Number of lines that report a failed simulation. *)
Definition failure_lines (out : list event) : nat :=
  List.length (filter is_failure_line (log_lines out)).

Definition is_failed_call (c : Q * option bool) : bool :=
  match snd c with
  | Some false => true
  | _ => false
  end.

(** Number of calls of [simulate_user_activity_session] that returned [False]. *)
Definition failed_calls (out : list event) : nat :=
  List.length (filter is_failed_call (simulate_calls out)).

(** The four lines the loop can write. *)
Definition known_line (l : level * string) : Prop :=
  l = (WARNING, "Session idle detected"%string) \/
  l = (ERROR, "Activity simulation failed"%string) \/
  l = (WARNING, "Session monitor running (no D-Bus)"%string) \/
  exists msg, l = (ERROR, ("Monitor error: " ++ msg)%string).

(** The samples a sequence of ticks gives, failed queries left out. *)
Definition observed (env : environment) (ticks : list tick) : list bool :=
  flat_map (fun t => match sample env t with Some b => [b] | None => [] end) ticks.

(** The keys of a dict. *)
Definition keys (d : list (string * json)) : list string := map fst d.

(** ** [setup_logging] *)

(** A path below the home directory, by its components. *)
Definition path : Type := list string.

Definition path_eqb (p q : path) : bool :=
  if list_eq_dec string_dec p q then true else false.

(** A [FileHandler]: the file it appends to and its format. *)
Record handler : Type := mkHandler {
  handler_file : path;
  handler_format : string
}.

(** The logger ['session_manager']: [logging.getLogger] gives the same
    object at every call.  Levels are the numbers of [logging]. *)
Record logger : Type := mkLogger {
  logger_level : Z;
  handlers : list handler
}.

Definition NOTSET : Z := 0.
Definition INFO : Z := 20.
Definition WARNING_ : Z := 30.
Definition ERROR_ : Z := 40.

(** A logger no one has touched. *)
Definition fresh_logger : logger := mkLogger NOTSET [].

(** A logger that was given a handler on another file before. *)
Definition logger_with_handler : logger :=
  mkLogger NOTSET [mkHandler [".cache"; "other.log"]%string "%(message)s"].

Definition log_path : path :=
  [".local"; "state"; "systemd-motion"; "session.log"]%string.

Inductive setup : Type :=
| SetUp (returned : path) (lg : logger)     (* the path returned, the logger left *)
| SetupRaises (lg : logger).                (* mkdir or the open of the file raised *)

(** Lines 38-53.  [mkdir_ok]: [state_dir.mkdir] succeeds.  [open_ok]:
    [logging.FileHandler] can open the file. *)
Definition setup_logging (mkdir_ok open_ok : bool) (lg : logger) : setup :=
  if mkdir_ok then
    let lg := mkLogger WARNING_ (handlers lg) in
    match handlers lg with
    | [] =>
        if open_ok then
          SetUp log_path
            (mkLogger (logger_level lg)
               (handlers lg ++
                [mkHandler log_path "%(asctime)s %(levelname)s %(message)s"]))
        else SetupRaises lg
    | _ :: _ => SetUp log_path lg
    end
  else SetupRaises lg.

(** [logger.isEnabledFor(levelno)] for a logger whose own level is set. *)
Definition enabled (lg : logger) (levelno : Z) : bool := logger_level lg <=? levelno.

(** The number of a level of the loop. *)
Definition levelno (lv : level) : Z :=
  match lv with
  | WARNING => WARNING_
  | ERROR => ERROR_
  end.

(** ** [motion-ctl]: [main] of [control.py] *)

Module Control.

(** What [subprocess.run] meets. *)
Inductive proc : Type :=
| Exits (returncode : Z)       (* the command ran *)
| NotFound.                    (* FileNotFoundError: no such program *)

Inductive line : Type :=
| Text (s : string)
| ErrorOf (cmd : list string) (returncode : Z).   (* print(f"Error: {e}") *)

Inductive ending : Type :=
| Returned                     (* exit status 0 *)
| SysExit (code : Z)           (* sys.exit(code) *)
| Escaped.                     (* an exception no handler caught *)

Record outcome : Type := mkOutcome {
  ran : list (list string);    (* the commands given to subprocess.run *)
  printed : list line;
  ended : ending
}.

Definition service_name : string := "systemd-motion.service".

(** [subprocess.run(cmd, check=True)] followed by [print(done)], inside the
    [try] of [main]. *)
Definition run_checked (run : list string -> proc) (cmd : list string) (done : string)
  : outcome :=
  match run cmd with
  | Exits returncode =>
      if returncode =? 0 then mkOutcome [cmd] [Text done] Returned
      else mkOutcome [cmd] [ErrorOf cmd returncode] (SysExit 1)
  | NotFound => mkOutcome [cmd] [] Escaped
  end.

(** [main]; [argv] is [sys.argv]. *)
Definition main (argv : list string) (run : list string -> proc) : outcome :=
  match argv with
  | [] | [_] =>
      mkOutcome []
        [Text "Usage: motion-ctl [start|stop|restart|status|enable|disable]"]
        (SysExit 1)
  | _ :: command :: _ =>
      let systemctl verb := ["systemctl"; "--user"; verb; service_name]%string in
      if String.eqb command "start" then
        run_checked run (systemctl "start"%string) "Systemd Motion service started"
      else if String.eqb command "stop" then
        run_checked run (systemctl "stop"%string) "Systemd Motion service stopped"
      else if String.eqb command "restart" then
        run_checked run (systemctl "restart"%string) "Systemd Motion service restarted"
      else if String.eqb command "status" then
        match run (systemctl "status"%string) with
        | Exits _ => mkOutcome [systemctl "status"%string] [] Returned
        | NotFound => mkOutcome [systemctl "status"%string] [] Escaped
        end
      else if String.eqb command "enable" then
        run_checked run (systemctl "enable"%string) "Systemd Motion service enabled"
      else if String.eqb command "disable" then
        run_checked run (systemctl "disable"%string) "Systemd Motion service disabled"
      else
        mkOutcome [] [Text ("Unknown command: " ++ command)] (SysExit 1)
  end.

Definition commands : list string :=
  ["start"; "stop"; "restart"; "status"; "enable"; "disable"]%string.

(** A [systemctl] that is there and exits with the status given. *)
Definition exits_with (returncode : Z) (cmd : list string) : proc := Exits returncode.

End Control.

(** ** The configuration file of the settings window, [gui.py] *)

(** The files below the home directory. *)
Definition files : Type := path -> config_file.

(** [p.write_text(text)] *)
Definition write_text (fs : files) (p : path) (text : string) : files :=
  fun q => if path_eqb q p then Content text else fs q.

(** The file [load_config] of [core.py] reads. *)
Definition config_path : path := [".config"; "systemd-motion"; "behavior.json"]%string.

Module Gui.

Definition config_path : path := [".config"; "systemd-user"; "behavior.json"]%string.

Section Window.

(** [json.loads], and [json.dumps(config, indent=2)]. *)
Variable json_loads : string -> option json.
Variable json_dumps : json -> string.

(** [MotionWindow.load_config]: the body of [load_config] of [core.py], on
    the file of the window. *)
Definition load_config (fs : files) : option json :=
  let f := fs config_path in
  match exists_ f with
  | None => None
  | Some true =>
      match read_text f with
      | Some text =>
          match json_loads text with
          | Some v => Some v
          | None => Some default_config
          end
      | None => Some default_config
      end
  | Some false => Some default_config
  end.

(** [MotionWindow.save_config]; [None] when [mkdir] or [write_text] raises. *)
Definition save_config (writable : bool) (config : json) (fs : files) : option files :=
  if writable then Some (write_text fs config_path (json_dumps config)) else None.

End Window.

End Gui.

(** A home directory without files. *)
Definition no_files : files := fun _ => Missing.

(** * Properties *)

(** ** Running one tick by cases *)

Ltac unfold_tick :=
  cbv beta iota delta [iteration try_except asyncio_sleep body bind ret raise emit
    get_logind_idle_hint simulate_user_activity_session logger_call handler_log
    get_idle_since get_last_idle_state set_idle_since set_last_idle_state
    differs site_eqb Bool.eqb negb andb check_interval_seconds];
  cbn.

Ltac split_tick :=
  repeat match goal with
    | |- context [match ?x with _ => _ end] => is_var x; destruct x; cbn
    | |- context [if Qle_bool ?a ?b then _ else _] => destruct (Qle_bool a b) eqn:?; cbn
    | |- context [if (?a =? ?b) then _ else _] => destruct (a =? b) eqn:?; cbn
    end.

Ltac open_tick cfg env t s :=
  destruct cfg as [im sam sa], env as [dbus sysbus sesbus],
    t as [hint now sim flt hflt slp], s as [last since];
  cbn in *.

(** ** Traces, state and progress of the loop *)

Lemma simulate_calls_app (a b : list event) :
  simulate_calls (a ++ b) = simulate_calls a ++ simulate_calls b.
Proof.
  induction a as [|ev a IH]; cbn; [reflexivity|].
  destruct ev; cbn; now rewrite IH.
Qed.

Lemma idle_transitions_app (a b : list event) :
  idle_transitions (a ++ b) = (idle_transitions a + idle_transitions b)%nat.
Proof.
  unfold idle_transitions. now rewrite filter_app, length_app.
Qed.


Lemma monitor_loop_cons cfg env t ticks s :
  monitor_loop cfg env (t :: ticks) s =
  match iteration cfg env t s with
  | Val _ s1 out1 =>
      match monitor_loop cfg env ticks s1 with
      | Val b s2 out2 => Val b s2 (out1 ++ out2)
      | Raise e s2 out2 => Raise e s2 (out1 ++ out2)
      end
  | Raise e s1 out1 => Raise e s1 out1
  end.
Proof. reflexivity. Qed.

(** The trace of the loop: the trace of the first tick, then, if the loop
    is still running, the trace of the others from the state it left. *)
Lemma trace_of_monitor_loop_cons cfg env t ticks s :
  trace_of (monitor_loop cfg env (t :: ticks) s) =
  trace_of (iteration cfg env t s) ++
  (if running (iteration cfg env t s)
   then trace_of (monitor_loop cfg env ticks (state_of (iteration cfg env t s)))
   else []).
Proof.
  rewrite monitor_loop_cons.
  destruct (iteration cfg env t s) as [[] s1 out1|e s1 out1]; cbn.
  - now destruct (monitor_loop cfg env ticks s1).
  - now rewrite app_nil_r.
Qed.

Lemma running_monitor_loop_cons cfg env t ticks s :
  running (monitor_loop cfg env (t :: ticks) s) =
  running (iteration cfg env t s) &&
  running (monitor_loop cfg env ticks (state_of (iteration cfg env t s))).
Proof.
  rewrite monitor_loop_cons.
  destruct (iteration cfg env t s) as [[] s1 out1|e s1 out1]; cbn; [|reflexivity].
  now destruct (monitor_loop cfg env ticks s1).
Qed.

Lemma state_of_monitor_loop_cons cfg env t ticks s :
  running (iteration cfg env t s) = true ->
  state_of (monitor_loop cfg env (t :: ticks) s) =
  state_of (monitor_loop cfg env ticks (state_of (iteration cfg env t s))).
Proof.
  rewrite monitor_loop_cons.
  destruct (iteration cfg env t s) as [[] s1 out1|e s1 out1]; cbn; [|discriminate].
  now destruct (monitor_loop cfg env ticks s1).
Qed.

(** ** The test of line 135 *)

(** The test succeeds when the threshold is crossed; [since] is the value
    of [idle_since] before lines 120-124. *)
Lemma crossed_passes_check (sam : Z) (now : Q) (since : option Q) :
  (inject_Z sam <= match since with Some x => now - x | None => 0 end / 60)%Q ->
  Qle_bool (inject_Z sam)
    ((now - match since with Some x => x | None => now end) / 60) = true.
Proof.
  intros H. apply Qle_bool_iff. destruct since as [x|]; [exact H|].
  eapply Qle_trans; [exact H|].
  assert (E : (now - now == 0)%Q) by ring.
  rewrite E. apply Qle_refl.
Qed.

(** What the test found true, in seconds. *)
Lemma check_gives_delay (sam : Z) (now x : Q) :
  Qle_bool (inject_Z sam) ((now - x) / 60) = true ->
  (x + 60 * inject_Z sam <= now)%Q.
Proof.
  intros H. apply Qle_bool_iff in H.
  apply (Qmult_le_compat_r _ _ 60) in H; [|discriminate].
  assert (E : ((now - x) / 60 * 60 == now - x)%Q) by (field; discriminate).
  rewrite E in H. lra.
Qed.

Lemma inject_Z_positive (z : Z) : 0 < z -> (0 < inject_Z z)%Q.
Proof. intros H. unfold Qlt; cbn. lia. Qed.

(** ** The sample of a tick *)

(** Lines 113-115 bind [idle_hint] to the sample of the tick, unless the
    query is cancelled. *)
Lemma idle_hint_is_sample env t s :
  idle_hint_reply t <> Interrupts ->
  (if system_bus env then get_logind_idle_hint env t else ret None) s =
  Val (sample env t) s [].
Proof.
  intros NI. unfold sample, get_logind_idle_hint.
  destruct (system_bus env), (DBUS_AVAILABLE env), (idle_hint_reply t);
    cbn; try reflexivity; now elim NI.
Qed.

(** A failed query is a tick without a sample whose query was not cancelled. *)
Lemma query_fails_no_sample env t :
  query_fails env t <->
  sample env t = None /\ (system_bus env && DBUS_AVAILABLE env = true ->
                          idle_hint_reply t <> Interrupts).
Proof.
  unfold query_fails, sample.
  destruct (system_bus env), (DBUS_AVAILABLE env), (idle_hint_reply t) as [b|msg|];
    cbn; split;
    try (intros [H|[H|[m H]]]; discriminate H);
    try (intros _; split; [reflexivity|intros _; discriminate]);
    try (intros [H N]; first [discriminate H | now elim (N eq_refl)]);
    try (intros _; split; [reflexivity|intros H; discriminate H]);
    try (intros _; now (left + (right; left) + (right; right; eexists))).
Qed.

Lemma sample_idle_reply env t :
  sample env t = Some true -> idle_hint_reply t = Reply true.
Proof.
  unfold sample. destruct (system_bus env && DBUS_AVAILABLE env); [|discriminate].
  destruct (idle_hint_reply t) as [[|] | |]; congruence.
Qed.

(** ** C1: what a failed simulation does to [idle_since] *)

(** C1 as stated fails.  The threshold is crossed at clock 300 after an idle
    period begun at 0, the call fails, and [idle_since] is 300 afterwards,
    not 0: line 140 is outside the [if not ok] of line 137. *)
Lemma failed_simulation_moves_idle_since :
  threshold_crossed simulation_on with_dbus (refused_tick 300) idle_for_a_while /\
  simulate_calls (trace_of (iteration simulation_on with_dbus (refused_tick 300) idle_for_a_while))
    = [(300%Q, Some false)] /\
  idle_since (state_of (iteration simulation_on with_dbus (refused_tick 300) idle_for_a_while))
    = Some 300%Q /\
  idle_since (state_of (iteration simulation_on with_dbus (refused_tick 300) idle_for_a_while))
    <> idle_since idle_for_a_while.
Proof.
  split; [|split; [reflexivity|split; [reflexivity|discriminate]]].
  repeat split. cbn. apply Qle_bool_iff. reflexivity.
Qed.

(** C1, amended.  On every poll tick on which the simulate-activity
    threshold is crossed (no logger call raises and the call is not
    cancelled), [simulate_user_activity_session] is called once and
    [idle_since] is set to the clock of the tick, whether the call succeeds
    or fails; a failed call is logged as an error. *)
Theorem simulate_call_resets_idle_since cfg env t s :
  threshold_crossed cfg env t s ->
  fault t = None ->
  simulate_reply t <> Interrupts ->
  idle_since (state_of (iteration cfg env t s)) = Some (time_time t) /\
  exists ok : bool,
    simulate_calls (trace_of (iteration cfg env t s)) = [(time_time t, Some ok)] /\
    (ok = true <-> simulate_reply t = Reply tt) /\
    (ok = false ->
     In (ERROR, "Activity simulation failed"%string)
        (log_lines (trace_of (iteration cfg env t s)))).
Proof.
  intros (Hs & Ha & Hb & Hq) F NI. open_tick cfg env t s.
  unfold sample in Hs; cbn in Hs. unfold idle_seconds in Hq; cbn in Hq.
  subst sa sesbus flt.
  destruct sysbus, dbus; try discriminate Hs.
  destruct hint as [[|] | |]; try discriminate Hs.
  pose proof (crossed_passes_check sam now since Hq) as C.
  unfold_tick.
  destruct since as [x|], last as [[|]|], sim as [[]|msg|], slp as [e|]; cbn;
    try (exfalso; apply NI; reflexivity);
    rewrite C; cbn; (split; [reflexivity|]);
    first [ exists true; cbn; split; [reflexivity|]; split;
            [split; reflexivity | discriminate]
          | exists false; cbn; split; [reflexivity|]; split;
            [split; discriminate | intros _; cbn; tauto] ].
Qed.

Lemma simulate_call_resets_idle_since_witness :
  threshold_crossed simulation_on with_dbus (refused_tick 300) idle_for_a_while /\
  fault (refused_tick 300) = None /\
  simulate_reply (refused_tick 300) <> Interrupts /\
  idle_since (state_of (iteration simulation_on with_dbus (refused_tick 300) idle_for_a_while))
    = Some (time_time (refused_tick 300)).
Proof.
  assert (H : threshold_crossed simulation_on with_dbus (refused_tick 300) idle_for_a_while).
  { repeat split. cbn. apply Qle_bool_iff. reflexivity. }
  assert (N : simulate_reply (refused_tick 300) <> Interrupts).
  { cbn. discriminate. }
  split; [exact H|]. split; [reflexivity|]. split; [exact N|].
  exact (proj1 (simulate_call_resets_idle_since simulation_on with_dbus (refused_tick 300)
                  idle_for_a_while H eq_refl N)).
Defined.

(** ** C2: [idle_since] follows the most recent sample *)

Lemma iteration_tracks_sample cfg env t s prev :
  (idle_since s <> None <-> prev = Some true) ->
  (idle_since (state_of (iteration cfg env t s)) <> None <-> newer env prev t = Some true).
Proof.
  intros H. open_tick cfg env t s.
  unfold newer, sample; cbn.
  unfold_tick. split_tick; try exact H;
    split; intros; try congruence; try discriminate.
Qed.

Lemma monitor_loop_tracks_sample cfg env ticks :
  forall s prev,
    (idle_since s <> None <-> prev = Some true) ->
    running (monitor_loop cfg env ticks s) = true ->
    (idle_since (state_of (monitor_loop cfg env ticks s)) <> None <->
     fold_left (newer env) ticks prev = Some true).
Proof.
  induction ticks as [|t ticks IH]; intros s prev I R; [exact I|].
  rewrite running_monitor_loop_cons in R. apply andb_prop in R as [R1 R2].
  rewrite (state_of_monitor_loop_cons _ _ _ _ _ R1). cbn [fold_left].
  apply IH; [|exact R2].
  now apply iteration_tracks_sample.
Qed.

(** C2.  For every sequence of poll ticks run from the initial state, once
    the loop has gone through them [idle_since] is not [None] if and only
    if the most recent tick that gave a sample reported idle; while no
    sample has been seen, [idle_since] is [None]. *)
Theorem idle_since_tracks_last_sample cfg env ticks :
  running (monitor_loop cfg env ticks initial) = true ->
  (idle_since (state_of (monitor_loop cfg env ticks initial)) <> None <->
   last_sample env ticks = Some true) /\
  (last_sample env ticks = None ->
   idle_since (state_of (monitor_loop cfg env ticks initial)) = None).
Proof.
  intros R.
  assert (I : idle_since (state_of (monitor_loop cfg env ticks initial)) <> None <->
              last_sample env ticks = Some true).
  { apply (monitor_loop_tracks_sample cfg env ticks initial None); [|exact R].
    cbn. split; [congruence|discriminate]. }
  split; [exact I|].
  intros E. rewrite E in I.
  destruct (idle_since (state_of (monitor_loop cfg env ticks initial))); [|reflexivity].
  exfalso. assert (X : @None bool = Some true) by (apply I; discriminate). discriminate X.
Qed.

Lemma idle_since_tracks_last_sample_witness :
  running (monitor_loop two_minutes with_dbus
             [active_tick 0; idle_tick 30; failed_query_tick 60; faulty_tick 90]
             initial) = true /\
  (idle_since
     (state_of (monitor_loop two_minutes with_dbus
                  [active_tick 0; idle_tick 30; failed_query_tick 60; faulty_tick 90]
                  initial)) <> None <->
   last_sample with_dbus
     [active_tick 0; idle_tick 30; failed_query_tick 60; faulty_tick 90] = Some true).
Proof.
  split; [reflexivity|].
  exact (proj1 (idle_since_tracks_last_sample two_minutes with_dbus
                  [active_tick 0; idle_tick 30; failed_query_tick 60; faulty_tick 90]
                  eq_refl)).
Defined.

(** ** C3: one idle line per run of idle samples *)

(** A quiet tick with a sample: the loop goes on, the sample is the one
    reported from now on, and the idle line is written exactly when the
    sample is idle and idle was not the state reported before. *)
Lemma quiet_tick_reports cfg env t s b :
  system_bus env = true ->
  DBUS_AVAILABLE env = true ->
  idle_hint_reply t = Reply b ->
  quiet t ->
  running (iteration cfg env t s) = true /\
  last_idle_state (state_of (iteration cfg env t s)) = Some b /\
  idle_transitions (trace_of (iteration cfg env t s)) =
    (if b && negb (reported_idle s) then 1 else 0)%nat.
Proof.
  intros Hs Hd Hr (F & NI & Sl). open_tick cfg env t s. subst.
  unfold reported_idle; cbn.
  unfold_tick. split_tick; try (exfalso; apply NI; reflexivity); auto.
Qed.

Lemma quiet_loop_counts_runs cfg env :
  system_bus env = true ->
  DBUS_AVAILABLE env = true ->
  forall samples ticks s,
    map idle_hint_reply ticks = map Reply samples ->
    Forall quiet ticks ->
    idle_transitions (trace_of (monitor_loop cfg env ticks s)) =
    runs_after (reported_idle s) samples.
Proof.
  intros Hs Hd samples.
  induction samples as [|b samples IH]; intros [|t ticks] s E Q;
    try discriminate E; [reflexivity|].
  cbn [map] in E. injection E as Eb Et.
  apply Forall_cons_iff in Q as [Qt Q].
  destruct (quiet_tick_reports cfg env t s b Hs Hd Eb Qt) as (R & L & N).
  rewrite trace_of_monitor_loop_cons, idle_transitions_app, R, N.
  rewrite (IH ticks _ Et Q). cbn [runs_after].
  assert (P : reported_idle (state_of (iteration cfg env t s)) = b).
  { unfold reported_idle. rewrite L. now destruct b. }
  now rewrite P.
Qed.

(** C3.  With the buses connected, for every finite sequence of samples fed
    from the initial state on quiet ticks, the number of idle-transition
    lines in the log is the number of maximal runs of idle samples (2 for
    F,F,T,T,T,F,T); and a tick whose sample is active leaves
    [last_idle_state] at active and writes no line. *)
Theorem idle_transition_logged_once_per_run cfg env :
  system_bus env = true ->
  DBUS_AVAILABLE env = true ->
  (forall samples ticks,
      map idle_hint_reply ticks = map Reply samples ->
      Forall quiet ticks ->
      idle_transitions (trace_of (monitor_loop cfg env ticks initial)) =
      idle_runs samples) /\
  idle_runs [false; false; true; true; true; false; true] = 2%nat /\
  (forall t s,
      idle_hint_reply t = Reply false ->
      last_idle_state (state_of (iteration cfg env t s)) = Some false /\
      log_lines (trace_of (iteration cfg env t s)) = []).
Proof.
  intros Hs Hd. split; [|split; [reflexivity|]].
  - intros samples ticks E Q.
    exact (quiet_loop_counts_runs cfg env Hs Hd samples ticks initial E Q).
  - intros t s Hr. open_tick cfg env t s. subst.
    unfold_tick. split_tick; auto.
Qed.

Lemma idle_transition_logged_once_per_run_witness :
  system_bus with_dbus = true /\
  DBUS_AVAILABLE with_dbus = true /\
  map idle_hint_reply seven_ticks = map Reply [false; false; true; true; true; false; true] /\
  Forall quiet seven_ticks /\
  idle_transitions (trace_of (monitor_loop two_minutes with_dbus seven_ticks initial)) =
  idle_runs [false; false; true; true; true; false; true].
Proof.
  assert (Q : Forall quiet seven_ticks).
  { repeat constructor; discriminate. }
  split; [reflexivity|]. split; [reflexivity|]. split; [reflexivity|].
  split; [exact Q|].
  exact (proj1 (idle_transition_logged_once_per_run two_minutes with_dbus eq_refl eq_refl)
           [false; false; true; true; true; false; true] seven_ticks eq_refl Q).
Defined.

(** ** C4: the delay restarts from the call *)

(** An idle sample in a state that is idle since [x]: either there is no
    call and the state stays idle since [x], or there is one call, made
    [simulate_after_minutes] or more after [x], and the state is idle since
    [x] or since the clock of the tick, the latter when the call succeeded. *)
Lemma idle_tick_call cfg env t s x :
  idle_hint_reply t = Reply true ->
  idle_since s = Some x ->
  (simulate_calls (trace_of (iteration cfg env t s)) = [] /\
   idle_since (state_of (iteration cfg env t s)) = Some x) \/
  (exists ok,
      simulate_calls (trace_of (iteration cfg env t s)) = [(time_time t, ok)] /\
      (x + 60 * inject_Z (simulate_after_minutes cfg) <= time_time t)%Q /\
      (idle_since (state_of (iteration cfg env t s)) = Some x \/
       idle_since (state_of (iteration cfg env t s)) = Some (time_time t)) /\
      (ok = Some true ->
       idle_since (state_of (iteration cfg env t s)) = Some (time_time t))).
Proof.
  intros Hr Hx. open_tick cfg env t s. subst.
  unfold_tick.
  split_tick; try (left; split; reflexivity);
    match goal with
    | C : Qle_bool _ _ = true |- _ => apply check_gives_delay in C
    end;
    right; eexists; (split; [reflexivity|]); (split; [assumption|]);
    (split; [auto|]); intros E; try discriminate E; reflexivity.
Qed.

(** The first idle sample starts the idle period and, the delay being
    positive, makes no call. *)
Lemma first_idle_tick_sets_idle_since cfg env t s :
  sample env t = Some true ->
  idle_since s = None ->
  0 < simulate_after_minutes cfg ->
  simulate_calls (trace_of (iteration cfg env t s)) = [] /\
  idle_since (state_of (iteration cfg env t s)) = Some (time_time t).
Proof.
  intros Hs Hn Hp. open_tick cfg env t s. subst.
  unfold sample in Hs; cbn in Hs.
  destruct sysbus, dbus; try discriminate Hs.
  destruct hint as [[|] | |]; try discriminate Hs.
  assert (C : Qle_bool (inject_Z sam) ((now - now) / 60) = false).
  { destruct (Qle_bool (inject_Z sam) ((now - now) / 60)) eqn:C; [|reflexivity].
    apply check_gives_delay in C.
    pose proof (inject_Z_positive sam Hp) as Y.
    lra. }
  unfold_tick. split_tick; try (split; reflexivity); congruence.
Qed.

(** While the samples stay idle, a state idle since [lo] or later sees
    every call [simulate_after_minutes] or more after [lo]. *)
Lemma idle_loop_calls_after cfg env ticks :
  0 < simulate_after_minutes cfg ->
  forall s x lo,
    Forall (fun t => sample env t = Some true) ticks ->
    idle_since s = Some x ->
    (lo <= x)%Q ->
    Forall (fun c => (lo + 60 * inject_Z (simulate_after_minutes cfg) <= fst c)%Q)
           (simulate_calls (trace_of (monitor_loop cfg env ticks s))).
Proof.
  intros Hp. pose proof (inject_Z_positive _ Hp) as P.
  induction ticks as [|t ticks IH]; intros s x lo I Hx Hlo; [constructor|].
  apply Forall_cons_iff in I as [It I].
  rewrite trace_of_monitor_loop_cons, simulate_calls_app.
  apply Forall_app.
  destruct (idle_tick_call cfg env t s x (sample_idle_reply env t It) Hx)
    as [(N & S1) | (ok & N & D & S1 & _)]; rewrite N.
  - split; [constructor|].
    destruct (running (iteration cfg env t s)); [|constructor].
    exact (IH _ x lo I S1 Hlo).
  - split.
    + constructor; [|constructor]. cbn. lra.
    + destruct (running (iteration cfg env t s)); [|constructor].
      destruct S1 as [S1 | S1].
      * exact (IH _ x lo I S1 Hlo).
      * apply (IH _ (time_time t) lo I S1). lra.
Qed.

(** While the samples stay idle, the first call comes
    [simulate_after_minutes] or more after the start of the idle period,
    and once it has succeeded every later call comes that much or more
    after it. *)
Lemma idle_loop_first_call cfg env ticks :
  0 < simulate_after_minutes cfg ->
  forall s x c1 calls,
    Forall (fun t => sample env t = Some true) ticks ->
    idle_since s = Some x ->
    simulate_calls (trace_of (monitor_loop cfg env ticks s)) = c1 :: calls ->
    (x + 60 * inject_Z (simulate_after_minutes cfg) <= fst c1)%Q /\
    (snd c1 = Some true ->
     Forall (fun c => (fst c1 + 60 * inject_Z (simulate_after_minutes cfg) <= fst c)%Q)
            calls).
Proof.
  intros Hp.
  induction ticks as [|t ticks IH]; intros s x c1 calls I Hx E; [discriminate E|].
  apply Forall_cons_iff in I as [It I].
  rewrite trace_of_monitor_loop_cons, simulate_calls_app in E.
  destruct (idle_tick_call cfg env t s x (sample_idle_reply env t It) Hx)
    as [(N & S1) | (ok & N & D & _ & S1)]; rewrite N in E; cbn [app] in E.
  - destruct (running (iteration cfg env t s)); [|discriminate E].
    exact (IH _ x c1 calls I S1 E).
  - injection E as <- <-. cbn [fst snd]. split; [exact D|].
    intros Ok. specialize (S1 Ok).
    destruct (running (iteration cfg env t s)); [|constructor].
    exact (idle_loop_calls_after cfg env ticks Hp _ (time_time t) (time_time t) I S1
             (Qle_refl _)).
Qed.

(** C4.  With [simulate_after_minutes] 2 and simulation on, for every run
    from the initial state on ticks that all sample idle, the first at
    clock 0: the first call of [simulate_user_activity_session] is made at
    clock 120 or later, and when it succeeds the next call is made 120
    seconds or more after it. *)
Theorem simulate_delay_restarts_from_call cfg env t0 ticks :
  simulate_after_minutes cfg = 2 ->
  simulate_activity cfg = true ->
  (time_time t0 == 0)%Q ->
  Forall (fun t => sample env t = Some true) (t0 :: ticks) ->
  forall c1 calls,
    simulate_calls (trace_of (monitor_loop cfg env (t0 :: ticks) initial)) = c1 :: calls ->
    (120 <= fst c1)%Q /\
    (snd c1 = Some true ->
     forall c2 calls', calls = c2 :: calls' -> (fst c1 + 120 <= fst c2)%Q).
Proof.
  intros Hd _ H0 I c1 calls E.
  assert (P : 0 < simulate_after_minutes cfg) by lia.
  apply Forall_cons_iff in I as [I0 I].
  rewrite trace_of_monitor_loop_cons, simulate_calls_app in E.
  destruct (first_idle_tick_sets_idle_since cfg env t0 initial I0 eq_refl P) as [N S0].
  rewrite N in E; cbn [app] in E.
  destruct (running (iteration cfg env t0 initial)); [|discriminate E].
  destruct (idle_loop_first_call cfg env ticks P _ (time_time t0) c1 calls I S0 E)
    as [A B].
  rewrite Hd in A, B.
  assert (X : (60 * inject_Z 2 == 120)%Q) by reflexivity.
  split; [lra|].
  intros Ok c2 calls' ->. specialize (B Ok).
  apply Forall_cons_iff in B as [B _]. lra.
Qed.

Lemma simulate_delay_restarts_from_call_witness :
  simulate_after_minutes two_minutes = 2 /\
  simulate_activity two_minutes = true /\
  (time_time (idle_tick 0) == 0)%Q /\
  Forall (fun t => sample with_dbus t = Some true) (idle_tick 0 :: continuous_idle) /\
  simulate_calls
    (trace_of (monitor_loop two_minutes with_dbus (idle_tick 0 :: continuous_idle) initial))
    = [(120%Q, Some true); (240%Q, Some true)] /\
  (120 <= 120)%Q /\
  (Some true = Some true ->
   forall c2 calls', [(240%Q, Some true)] = c2 :: calls' -> (120 + 120 <= fst c2)%Q).
Proof.
  assert (I : Forall (fun t => sample with_dbus t = Some true)
                (idle_tick 0 :: continuous_idle)).
  { repeat constructor. }
  split; [reflexivity|]. split; [reflexivity|]. split; [reflexivity|].
  split; [exact I|]. split; [reflexivity|].
  exact (simulate_delay_restarts_from_call two_minutes with_dbus (idle_tick 0)
           continuous_idle eq_refl eq_refl (Qeq_refl 0) I
           (120%Q, Some true) [(240%Q, Some true)] eq_refl).
Defined.

(** ** C5: a failed query is no information *)

(** C5.  On every poll tick on which the query of the idle hint fails, and
    for every state before it, [idle_since] and [last_idle_state] are after
    the tick what they were before, and
    [simulate_user_activity_session] is not called. *)
Theorem failed_query_changes_nothing cfg env t s :
  query_fails env t ->
  idle_since (state_of (iteration cfg env t s)) = idle_since s /\
  last_idle_state (state_of (iteration cfg env t s)) = last_idle_state s /\
  simulate_calls (trace_of (iteration cfg env t s)) = [].
Proof.
  intros H. open_tick cfg env t s.
  unfold query_fails in H; cbn in H.
  unfold_tick.
  destruct H as [-> | [-> | [msg ->]]]; cbn; split_tick; auto.
Qed.

Lemma failed_query_changes_nothing_witness :
  query_fails with_dbus (failed_query_tick 600) /\
  idle_since (state_of (iteration simulation_on with_dbus (failed_query_tick 600) idle_for_a_while))
    = idle_since idle_for_a_while /\
  last_idle_state (state_of (iteration simulation_on with_dbus (failed_query_tick 600) idle_for_a_while))
    = last_idle_state idle_for_a_while /\
  simulate_calls (trace_of (iteration simulation_on with_dbus (failed_query_tick 600) idle_for_a_while))
    = [].
Proof.
  assert (H : query_fails with_dbus (failed_query_tick 600)).
  { right; right. exists "D-Bus error"%string. reflexivity. }
  split; [exact H|].
  exact (failed_query_changes_nothing simulation_on with_dbus (failed_query_tick 600)
           idle_for_a_while H).
Defined.

(** ** C6: what a failed query writes to the log *)

(** C6 as stated fails.  A failed query at clock 1 is followed by the sleep
    and nothing is written to the log: [get_logind_idle_hint] turns the
    failure into [None] without logging, and the branch of line 141 logs
    only when [int(now) % 300 == 0]. *)
Lemma failed_query_not_logged_at_1 :
  query_fails with_dbus (failed_query_tick 1) /\
  log_lines (trace_of (iteration simulation_on with_dbus (failed_query_tick 1) initial)) = [] /\
  trace_of (iteration simulation_on with_dbus (failed_query_tick 1) initial) = [Sleep 30].
Proof.
  split; [|split; reflexivity].
  right; right. exists "D-Bus error"%string. reflexivity.
Qed.

(** C6, amended.  On a poll tick on which the query fails (and no logger
    call raises) the log receives one line, the periodic status warning,
    when [int(now) % 300 == 0], and nothing otherwise; the failure of the
    query itself is not recorded. *)
Theorem failed_query_logs_status_only cfg env t s :
  query_fails env t ->
  fault t = None ->
  log_lines (trace_of (iteration cfg env t s)) =
  if Qtrunc (time_time t) mod 300 =? 0
  then [(WARNING, "Session monitor running (no D-Bus)"%string)]
  else [].
Proof.
  intros H F. open_tick cfg env t s. subst flt.
  unfold query_fails in H; cbn in H.
  unfold_tick.
  destruct H as [-> | [-> | [msg ->]]]; cbn; split_tick; auto.
Qed.

Lemma failed_query_logs_status_only_witness :
  query_fails with_dbus (failed_query_tick 600) /\
  fault (failed_query_tick 600) = None /\
  log_lines (trace_of (iteration simulation_on with_dbus (failed_query_tick 600) initial)) =
  if Qtrunc (time_time (failed_query_tick 600)) mod 300 =? 0
  then [(WARNING, "Session monitor running (no D-Bus)"%string)]
  else [].
Proof.
  assert (H : query_fails with_dbus (failed_query_tick 600)).
  { right; right. exists "D-Bus error"%string. reflexivity. }
  split; [exact H|]. split; [reflexivity|].
  exact (failed_query_logs_status_only simulation_on with_dbus (failed_query_tick 600)
           initial H eq_refl).
Defined.

(** ** C7: the loader falls back to the defaults *)

(** When the configuration file is missing, is there but cannot be read, or
    holds text that [json.loads] rejects, [load_config] returns the default
    dictionary, whole, and the settings [monitor] reads from it are 10, 5
    and [False]. *)
Lemma load_config_falls_back_to_defaults
    (json_loads : string -> option json) (int_of_string : string -> option Z)
    (f : config_file) :
  f = Missing \/ f = Unreadable \/
  (exists text, f = Content text /\ json_loads text = None) ->
  load_config json_loads f = Some default_config /\
  read_settings int_of_string default_config = Some (mkConfiguration 10 5 false).
Proof.
  intros [-> | [-> | (text & -> & E)]]; unfold load_config; cbn;
    try rewrite E; split; reflexivity.
Qed.

(** C7.  The claim fails on a file that cannot be reached: when a directory
    above the configuration file cannot be searched, [config_path.exists()]
    raises at line 26, outside the [try] that covers the reading and the
    parsing, so [load_config] raises instead of returning the defaults, and
    [monitor] ends before its loop, whatever the rest of the run would
    be. *)
Theorem load_config_raises_when_exists_raises
    (json_loads : string -> option json) (int_of_string : string -> option Z)
    (dbus_available : bool) (conn : connection) (ticks : list tick) :
  load_config json_loads Unsearchable = None /\
  load_config json_loads Unsearchable <> Some default_config /\
  monitor json_loads int_of_string Unsearchable dbus_available conn ticks =
    StartupRaises.
Proof.
  repeat split. discriminate.
Qed.

(** ** C8: which faults of an iteration stop the loop *)






(** ** C9: no simulation when it is disabled *)

Lemma disabled_iteration_never_calls cfg env t s :
  simulate_activity cfg = false ->
  simulate_calls (trace_of (iteration cfg env t s)) = [].
Proof.
  intros H. open_tick cfg env t s. subst sa.
  unfold_tick. split_tick; reflexivity.
Qed.

(** C9.  If [simulate_activity] is [False], then for every sequence of poll
    ticks, every environment and every state the loop starts from,
    [simulate_user_activity_session] is never called. *)
Theorem disabled_simulation_never_calls cfg env ticks s :
  simulate_activity cfg = false ->
  simulate_calls (trace_of (monitor_loop cfg env ticks s)) = [].
Proof.
  intros H. revert s.
  induction ticks as [|t ticks IH]; intros s; [reflexivity|].
  rewrite trace_of_monitor_loop_cons, simulate_calls_app.
  rewrite (disabled_iteration_never_calls cfg env t s H).
  destruct (running (iteration cfg env t s)); [apply IH | reflexivity].
Qed.

Lemma disabled_simulation_never_calls_witness :
  simulate_activity (mkConfiguration 10 5 false) = false /\
  simulate_calls
    (trace_of (monitor_loop (mkConfiguration 10 5 false) with_dbus
                 [idle_tick 0; idle_tick 3000; idle_tick 6000] initial)) = [].
Proof.
  split; [reflexivity|].
  exact (disabled_simulation_never_calls (mkConfiguration 10 5 false) with_dbus
           [idle_tick 0; idle_tick 3000; idle_tick 6000] initial eq_refl).
Defined.

(** ** C10: [idle_minutes] does not reach the loop *)

(** The loop reads two settings only. *)
Lemma monitor_loop_same_settings c1 c2 env ticks s :
  simulate_after_minutes c1 = simulate_after_minutes c2 ->
  simulate_activity c1 = simulate_activity c2 ->
  monitor_loop c1 env ticks s = monitor_loop c2 env ticks s.
Proof.
  destruct c1 as [im1 sam1 sa1], c2 as [im2 sam2 sa2]; cbn.
  intros -> ->. revert s.
  induction ticks as [|t ticks IH]; intros s; [reflexivity|].
  rewrite !monitor_loop_cons.
  change (iteration (mkConfiguration im1 sam2 sa2) env t s)
    with (iteration (mkConfiguration im2 sam2 sa2) env t s).
  destruct (iteration (mkConfiguration im2 sam2 sa2) env t s) as [[] s1 out1|e s1 out1];
    [now rewrite IH | reflexivity].
Qed.

(** C10.  Two runs of the loop whose configurations differ in
    [idle_minutes] only give, on the same ticks (samples, clock, faults)
    and from the same state, the same result: the same log lines and the
    same calls of [simulate_user_activity_session]. *)
Theorem idle_minutes_not_used c1 c2 env ticks s :
  simulate_after_minutes c1 = simulate_after_minutes c2 ->
  simulate_activity c1 = simulate_activity c2 ->
  monitor_loop c1 env ticks s = monitor_loop c2 env ticks s /\
  log_lines (trace_of (monitor_loop c1 env ticks s)) =
    log_lines (trace_of (monitor_loop c2 env ticks s)) /\
  simulate_calls (trace_of (monitor_loop c1 env ticks s)) =
    simulate_calls (trace_of (monitor_loop c2 env ticks s)).
Proof.
  intros A B.
  rewrite (monitor_loop_same_settings c1 c2 env ticks s A B).
  repeat split.
Qed.

Lemma idle_minutes_not_used_witness :
  simulate_after_minutes (mkConfiguration 1 2 true) = simulate_after_minutes two_minutes /\
  simulate_activity (mkConfiguration 1 2 true) = simulate_activity two_minutes /\
  monitor_loop (mkConfiguration 1 2 true) with_dbus
    [idle_tick 0; refused_tick 120; faulty_tick 150; idle_tick 240] initial =
  monitor_loop two_minutes with_dbus
    [idle_tick 0; refused_tick 120; faulty_tick 150; idle_tick 240] initial.
Proof.
  split; [reflexivity|]. split; [reflexivity|].
  exact (proj1 (idle_minutes_not_used (mkConfiguration 1 2 true) two_minutes with_dbus
                  [idle_tick 0; refused_tick 120; faulty_tick 150; idle_tick 240] initial
                  eq_refl eq_refl)).
Defined.

(** ** The configuration at startup *)

(** Line 91 does read [idle_minutes]: a value that [int] refuses stops
    [monitor] before the loop. *)
Remark idle_minutes_is_read_at_startup :
  read_settings (fun _ => None) (JObject [("idle_minutes"%string, JNull)]) = None.
Proof. reflexivity. Qed.

(** Two runs of [monitor] whose settings differ in [idle_minutes] only. *)
Corollary monitor_ignores_idle_minutes
    (json_loads : string -> option json) (int_of_string : string -> option Z)
    (f1 f2 : config_file) (config1 config2 : json) (c1 c2 : Configuration)
    (dbus_available : bool) (conn : connection) (ticks : list tick) :
  load_config json_loads f1 = Some config1 ->
  load_config json_loads f2 = Some config2 ->
  read_settings int_of_string config1 = Some c1 ->
  read_settings int_of_string config2 = Some c2 ->
  simulate_after_minutes c1 = simulate_after_minutes c2 ->
  simulate_activity c1 = simulate_activity c2 ->
  monitor json_loads int_of_string f1 dbus_available conn ticks =
  monitor json_loads int_of_string f2 dbus_available conn ticks.
Proof.
  intros L1 L2 R1 R2 A B. unfold monitor. rewrite L1, L2, R1, R2.
  destruct dbus_available; [destruct conn|]; try reflexivity;
    now rewrite (monitor_loop_same_settings c1 c2 _ ticks initial A B).
Qed.

(** * Further properties of the loop *)

Lemma state_of_monitor_loop_step cfg env t ticks s :
  state_of (monitor_loop cfg env (t :: ticks) s) =
  if running (iteration cfg env t s)
  then state_of (monitor_loop cfg env ticks (state_of (iteration cfg env t s)))
  else state_of (iteration cfg env t s).
Proof.
  rewrite monitor_loop_cons.
  destruct (iteration cfg env t s) as [[] s1 out1|e s1 out1]; cbn; [|reflexivity].
  now destruct (monitor_loop cfg env ticks s1).
Qed.

(** A property of the locals that every tick of the list keeps is kept by
    the loop, whether it is still running or was left. *)
Lemma monitor_loop_invariant (P : locals -> Prop) cfg env ticks :
  Forall (fun t => forall s, P s -> P (state_of (iteration cfg env t s))) ticks ->
  forall s, P s -> P (state_of (monitor_loop cfg env ticks s)).
Proof.
  induction ticks as [|t ticks IH]; intros K s Ps; [exact Ps|].
  apply Forall_cons_iff in K as [Kt K].
  rewrite state_of_monitor_loop_step.
  destruct (running (iteration cfg env t s)); auto.
Qed.

(** ** The two locals agree *)

Lemma iteration_keeps_locals_coherent cfg env t s :
  fault t = None ->
  (idle_since s <> None <-> last_idle_state s = Some true) ->
  (idle_since (state_of (iteration cfg env t s)) <> None <->
   last_idle_state (state_of (iteration cfg env t s)) = Some true).
Proof.
  intros F H. open_tick cfg env t s. subst flt.
  unfold_tick. split_tick; try exact H;
    split; intros; try congruence; try discriminate;
    try (exfalso; apply H; [discriminate | reflexivity]).
Qed.

(** X1.  On ticks where no logger call raises, whatever the samples, the
    failures and the cancellations, the two locals agree after the run from
    the initial state: [idle_since] is set if and only if the state last
    reported is idle. *)
Theorem locals_stay_coherent cfg env ticks :
  Forall (fun t => fault t = None) ticks ->
  (idle_since (state_of (monitor_loop cfg env ticks initial)) <> None <->
   last_idle_state (state_of (monitor_loop cfg env ticks initial)) = Some true).
Proof.
  intros F.
  apply (monitor_loop_invariant
           (fun s => idle_since s <> None <-> last_idle_state s = Some true)).
  - apply Forall_forall. intros t It s H.
    apply iteration_keeps_locals_coherent; [|exact H].
    exact (proj1 (Forall_forall _ _) F t It).
  - cbn. split; [congruence|discriminate].
Qed.

Lemma locals_stay_coherent_witness :
  Forall (fun t => fault t = None) seven_ticks /\
  (idle_since (state_of (monitor_loop two_minutes with_dbus seven_ticks initial)) <> None <->
   last_idle_state (state_of (monitor_loop two_minutes with_dbus seven_ticks initial))
     = Some true).
Proof.
  assert (F : Forall (fun t => fault t = None) seven_ticks).
  { repeat constructor. }
  split; [exact F|].
  exact (locals_stay_coherent two_minutes with_dbus seven_ticks F).
Defined.

(** ** Where the value of [idle_since] comes from *)

Lemma iteration_idle_since_origin cfg env t s x :
  idle_since (state_of (iteration cfg env t s)) = Some x ->
  idle_since s = Some x \/ (sample env t = Some true /\ time_time t = x).
Proof.
  open_tick cfg env t s. unfold sample; cbn.
  unfold_tick. split_tick; intros E; try discriminate E; auto;
    injection E as <-; auto.
Qed.

(** X2.  Whatever the ticks bring, a value of [idle_since] after a run from
    the initial state is the clock of one of the ticks whose sample was
    idle: the loop stores no other time. *)
Theorem idle_since_is_a_clock_seen cfg env ticks x :
  idle_since (state_of (monitor_loop cfg env ticks initial)) = Some x ->
  exists t, In t ticks /\ sample env t = Some true /\ time_time t = x.
Proof.
  assert (G : forall s,
             idle_since (state_of (monitor_loop cfg env ticks s)) = Some x ->
             idle_since s = Some x \/
             exists t, In t ticks /\ sample env t = Some true /\ time_time t = x).
  { induction ticks as [|t ticks IH]; intros s E; [left; exact E|].
    rewrite state_of_monitor_loop_step in E.
    assert (K : idle_since (state_of (iteration cfg env t s)) = Some x ->
                idle_since s = Some x \/
                exists t', In t' (t :: ticks) /\ sample env t' = Some true /\
                           time_time t' = x).
    { intros E'. destruct (iteration_idle_since_origin cfg env t s x E') as [H|[H1 H2]];
        [left; exact H | right; exists t; cbn; auto]. }
    destruct (running (iteration cfg env t s)); [|exact (K E)].
    destruct (IH _ E) as [H|(t' & I1 & I2 & I3)]; [exact (K H)|].
    right. exists t'. cbn. auto. }
  intros E. destruct (G initial E) as [H|H]; [discriminate H | exact H].
Qed.

Lemma idle_since_is_a_clock_seen_witness :
  idle_since (state_of (monitor_loop two_minutes with_dbus seven_ticks initial))
    = Some 180%Q /\
  exists t, In t seven_ticks /\ sample with_dbus t = Some true /\ time_time t = 180%Q.
Proof.
  split; [reflexivity|].
  exact (idle_since_is_a_clock_seen two_minutes with_dbus seven_ticks 180%Q eq_refl).
Defined.

(** ** The start of an idle period is kept *)

Lemma idle_period_starts cfg env t s :
  simulate_activity cfg = false ->
  idle_since s = None ->
  sample env t = Some true ->
  idle_since (state_of (iteration cfg env t s)) = Some (time_time t).
Proof.
  intros Hs Hn Hi. open_tick cfg env t s. subst.
  unfold sample in Hi; cbn in Hi.
  destruct sysbus, dbus; try discriminate Hi.
  destruct hint as [[|] | |]; try discriminate Hi.
  unfold_tick. split_tick; reflexivity.
Qed.

Lemma idle_period_goes_on cfg env t s x :
  simulate_activity cfg = false ->
  idle_since s = Some x ->
  sample env t <> Some false ->
  idle_since (state_of (iteration cfg env t s)) = Some x.
Proof.
  intros Hs Hx Hi. open_tick cfg env t s. subst.
  unfold sample in Hi; cbn in Hi.
  unfold_tick.
  destruct sysbus, dbus, hint as [[|] | |]; cbn in Hi |- *;
    try (exfalso; apply Hi; reflexivity); split_tick; reflexivity.
Qed.

(** X3.  With simulation off, an idle sample met with [idle_since] unset
    sets it to the clock of that tick, and it stays there for as long as no
    tick samples active: failed queries, logger faults and further idle
    samples do not move the start of the idle period. *)
Theorem idle_start_is_kept cfg env t ticks s :
  simulate_activity cfg = false ->
  idle_since s = None ->
  sample env t = Some true ->
  Forall (fun t' => sample env t' <> Some false) ticks ->
  idle_since (state_of (monitor_loop cfg env (t :: ticks) s)) = Some (time_time t).
Proof.
  intros Hs Hn Hi K.
  rewrite state_of_monitor_loop_step.
  pose proof (idle_period_starts cfg env t s Hs Hn Hi) as E.
  destruct (running (iteration cfg env t s)); [|exact E].
  apply (monitor_loop_invariant (fun s' => idle_since s' = Some (time_time t)));
    [|exact E].
  apply Forall_forall. intros t' I' s' E'.
  apply idle_period_goes_on; auto.
  exact (proj1 (Forall_forall _ _) K t' I').
Qed.

Lemma idle_start_is_kept_witness :
  simulate_activity (mkConfiguration 10 5 false) = false /\
  idle_since initial = None /\
  sample with_dbus (idle_tick 7) = Some true /\
  Forall (fun t' => sample with_dbus t' <> Some false)
    [failed_query_tick 37; faulty_tick 67; idle_tick 9000] /\
  idle_since
    (state_of (monitor_loop (mkConfiguration 10 5 false) with_dbus
                 (idle_tick 7 :: [failed_query_tick 37; faulty_tick 67; idle_tick 9000])
                 initial)) = Some (time_time (idle_tick 7)).
Proof.
  assert (K : Forall (fun t' => sample with_dbus t' <> Some false)
                [failed_query_tick 37; faulty_tick 67; idle_tick 9000]).
  { repeat constructor; discriminate. }
  split; [reflexivity|]. split; [reflexivity|]. split; [reflexivity|].
  split; [exact K|].
  exact (idle_start_is_kept (mkConfiguration 10 5 false) with_dbus (idle_tick 7)
           [failed_query_tick 37; faulty_tick 67; idle_tick 9000] initial
           eq_refl eq_refl eq_refl K).
Defined.

(** ** The calls are spaced *)

Lemma call_clocks_app (a b : list event) :
  call_clocks (a ++ b) = call_clocks a ++ call_clocks b.
Proof.
  unfold call_clocks. now rewrite simulate_calls_app, map_app.
Qed.

(** One tick without logger faults, at a clock that is [lo] or later, in
    a state whose idle period began at [lo] or later: either no call is
    made and the idle period still begins at [lo] or later, or one call
    is made, [simulate_after_minutes] or more after [lo], and, if the
    loop goes on, the idle period begins anew at the clock of the tick. *)
Lemma fault_free_tick_call cfg env t s lo :
  fault t = None ->
  (lo <= time_time t)%Q ->
  (forall x, idle_since s = Some x -> (lo <= x)%Q) ->
  (call_clocks (trace_of (iteration cfg env t s)) = [] /\
   forall x, idle_since (state_of (iteration cfg env t s)) = Some x -> (lo <= x)%Q) \/
  (call_clocks (trace_of (iteration cfg env t s)) = [time_time t] /\
   (lo + 60 * inject_Z (simulate_after_minutes cfg) <= time_time t)%Q /\
   (running (iteration cfg env t s) = true ->
    idle_since (state_of (iteration cfg env t s)) = Some (time_time t))).
Proof.
  intros F Hn Hs. open_tick cfg env t s. subst flt.
  unfold call_clocks. unfold_tick.
  split_tick;
    try (left; split; [reflexivity|];
         intros x E; first [discriminate E | injection E as <-; assumption
                           | apply Hs; exact E]);
    right; (split; [reflexivity|]);
    (split; [|intros R; first [discriminate R | reflexivity]]);
    match goal with
    | C : Qle_bool _ _ = true |- _ => apply check_gives_delay in C
    end;
    first [ specialize (Hs _ eq_refl); lra | lra ].
Qed.

Lemma spaced_loop cfg env ticks :
  forall s lo,
    Forall (fun t => fault t = None) ticks ->
    StronglySorted Qle (map time_time ticks) ->
    Forall (fun t => (lo <= time_time t)%Q) ticks ->
    (forall x, idle_since s = Some x -> (lo <= x)%Q) ->
    spaced_from (60 * inject_Z (simulate_after_minutes cfg)) lo
      (call_clocks (trace_of (monitor_loop cfg env ticks s))).
Proof.
  induction ticks as [|t ticks IH]; intros s lo F S L Hs; [exact I|].
  apply Forall_cons_iff in F as [Ft F].
  apply Forall_cons_iff in L as [Lt L].
  cbn [map] in S. apply StronglySorted_inv in S as [S St].
  rewrite trace_of_monitor_loop_cons, call_clocks_app.
  destruct (fault_free_tick_call cfg env t s lo Ft Lt Hs)
    as [(N & Hs') | (N & D & Hs')]; rewrite N; cbn [app].
  - destruct (running (iteration cfg env t s)); [|exact I].
    exact (IH _ lo F S L Hs').
  - cbn [spaced_from]. split; [exact D|].
    destruct (running (iteration cfg env t s)); [|exact I].
    apply (IH _ (time_time t) F S).
    + apply Forall_forall. intros t' I'.
      apply (proj1 (Forall_forall _ _) St). now apply in_map.
    + intros x E. rewrite (Hs' eq_refl) in E. injection E as <-. apply Qle_refl.
Qed.

Lemma spaced_from_adjacent (d : Q) (clocks : list Q) :
  forall lo pre c1 c2 post,
    spaced_from d lo clocks ->
    clocks = pre ++ c1 :: c2 :: post ->
    (c1 + d <= c2)%Q.
Proof.
  induction clocks as [|c clocks IH]; intros lo pre c1 c2 post S E.
  - destruct pre; discriminate E.
  - destruct S as [_ S]. destruct pre as [|p pre]; cbn in E.
    + injection E as -> ->. exact (proj1 S).
    + injection E as -> ->. exact (IH _ pre c1 c2 post S eq_refl).
Qed.

(** X4.  On ticks where no logger call raises and the clock does not go
    back, whatever the samples and whether the calls succeed or fail, two
    successive calls of [simulate_user_activity_session] are
    [simulate_after_minutes] minutes or more apart: a failed call is not
    retried on the next poll. *)
Theorem calls_are_spaced cfg env ticks :
  Forall (fun t => fault t = None) ticks ->
  StronglySorted Qle (map time_time ticks) ->
  forall pre c1 c2 post,
    call_clocks (trace_of (monitor_loop cfg env ticks initial)) = pre ++ c1 :: c2 :: post ->
    (c1 + 60 * inject_Z (simulate_after_minutes cfg) <= c2)%Q.
Proof.
  intros F S pre c1 c2 post E.
  destruct ticks as [|t ticks]; [destruct pre; discriminate E|].
  refine (spaced_from_adjacent _ _ (time_time t) pre c1 c2 post _ E).
  apply spaced_loop; auto.
  - cbn [map] in S. apply StronglySorted_inv in S as [_ St].
    constructor; [apply Qle_refl|].
    apply Forall_forall. intros t' I'.
    apply (proj1 (Forall_forall _ _) St). now apply in_map.
  - intros x E'. discriminate E'.
Qed.

Lemma calls_are_spaced_witness :
  Forall (fun t => fault t = None) refused_then_idle /\
  StronglySorted Qle (map time_time refused_then_idle) /\
  call_clocks (trace_of (monitor_loop two_minutes with_dbus refused_then_idle initial))
    = [] ++ 120%Q :: 240%Q :: [] /\
  (120 + 60 * inject_Z (simulate_after_minutes two_minutes) <= 240)%Q.
Proof.
  assert (F : Forall (fun t => fault t = None) refused_then_idle).
  { repeat constructor. }
  assert (S : StronglySorted Qle (map time_time refused_then_idle)).
  { repeat constructor; discriminate. }
  split; [exact F|]. split; [exact S|]. split; [reflexivity|].
  exact (calls_are_spaced two_minutes with_dbus refused_then_idle F S
           [] 120%Q 240%Q [] eq_refl).
Defined.

(** ** When calls are made *)

Lemma iteration_call_needs_idle_sample cfg env t s :
  simulate_calls (trace_of (iteration cfg env t s)) = [] \/
  (sample env t = Some true /\ session_bus env = true /\
   simulate_activity cfg = true /\
   exists ok, simulate_calls (trace_of (iteration cfg env t s)) = [(time_time t, ok)]).
Proof.
  open_tick cfg env t s. unfold sample; cbn.
  unfold_tick. split_tick; auto; right; repeat split; eauto.
Qed.

(** X5.  Every call of [simulate_user_activity_session] is made on a tick
    whose sample is idle, at most once per tick, and only with a session
    bus: the calls of a run are as many as the idle ticks at most, each
    carries the clock of an idle tick, and without a session bus there is
    none. *)
Theorem calls_only_on_idle_ticks cfg env ticks s :
  (List.length (simulate_calls (trace_of (monitor_loop cfg env ticks s))) <=
   List.length (filter (fun t => match sample env t with Some true => true | _ => false end)
                       ticks))%nat /\
  (forall c, In c (simulate_calls (trace_of (monitor_loop cfg env ticks s))) ->
             exists t, In t ticks /\ sample env t = Some true /\ time_time t = fst c) /\
  (session_bus env = false ->
   simulate_calls (trace_of (monitor_loop cfg env ticks s)) = []).
Proof.
  revert s. induction ticks as [|t ticks IH]; intros s.
  - cbn. repeat split; auto. intros c [].
  - rewrite trace_of_monitor_loop_cons, simulate_calls_app.
    assert (R : exists rest,
               (if running (iteration cfg env t s)
                then trace_of (monitor_loop cfg env ticks (state_of (iteration cfg env t s)))
                else []) = rest /\
               (List.length (simulate_calls rest) <=
                List.length (filter (fun t => match sample env t with
                                              | Some true => true | _ => false end) ticks))%nat /\
               (forall c, In c (simulate_calls rest) ->
                          exists t, In t ticks /\ sample env t = Some true /\
                                    time_time t = fst c) /\
               (session_bus env = false -> simulate_calls rest = [])).
    { eexists. split; [reflexivity|].
      destruct (running (iteration cfg env t s)); [apply IH|].
      cbn. repeat split; auto using Nat.le_0_l. intros c []. }
    destruct R as (rest & -> & L & O & B).
    destruct (iteration_call_needs_idle_sample cfg env t s)
      as [N | (Hi & Hb & _ & ok & N)]; rewrite N; cbn [app filter].
    + split; [|split].
      * destruct (sample env t) as [[|]|]; cbn [List.length]; lia.
      * intros c Ic. destruct (O c Ic) as (t' & I1 & I2 & I3).
        exists t'. cbn. auto.
      * exact B.
    + rewrite Hi. split; [|split].
      * cbn [List.length]. lia.
      * intros c [<- | Ic]; [exists t; cbn; auto|].
        destruct (O c Ic) as (t' & I1 & I2 & I3). exists t'. cbn. auto.
      * intros Hf. congruence.
Qed.

(** ** A failed call leaves a line *)

Lemma log_lines_app (a b : list event) :
  log_lines (a ++ b) = log_lines a ++ log_lines b.
Proof.
  induction a as [|ev a IH]; cbn; [reflexivity|].
  destruct ev; cbn; now rewrite IH.
Qed.

Lemma failure_lines_app (a b : list event) :
  failure_lines (a ++ b) = (failure_lines a + failure_lines b)%nat.
Proof.
  unfold failure_lines. now rewrite log_lines_app, filter_app, length_app.
Qed.

Lemma failed_calls_app (a b : list event) :
  failed_calls (a ++ b) = (failed_calls a + failed_calls b)%nat.
Proof.
  unfold failed_calls. now rewrite simulate_calls_app, filter_app, length_app.
Qed.

Lemma iteration_logs_failed_call cfg env t s :
  fault t = None ->
  failure_lines (trace_of (iteration cfg env t s)) =
  failed_calls (trace_of (iteration cfg env t s)).
Proof.
  intros F. open_tick cfg env t s. subst flt.
  unfold failure_lines, failed_calls.
  unfold_tick. split_tick; reflexivity.
Qed.

(** X6.  On ticks where no logger call raises, the log holds one
    "Activity simulation failed" line for each call of
    [simulate_user_activity_session] that returned [False], and no other:
    no failure goes unreported and no success is reported as one. *)
Theorem failed_calls_are_logged cfg env ticks s :
  Forall (fun t => fault t = None) ticks ->
  failure_lines (trace_of (monitor_loop cfg env ticks s)) =
  failed_calls (trace_of (monitor_loop cfg env ticks s)).
Proof.
  intros F. revert s. induction F as [|t ticks Ft F IH]; intros s; [reflexivity|].
  rewrite trace_of_monitor_loop_cons, failure_lines_app, failed_calls_app.
  rewrite (iteration_logs_failed_call cfg env t s Ft).
  destruct (running (iteration cfg env t s)); [now rewrite IH | reflexivity].
Qed.

Lemma failed_calls_are_logged_witness :
  Forall (fun t => fault t = None) refused_then_idle /\
  failure_lines (trace_of (monitor_loop two_minutes with_dbus refused_then_idle initial)) =
  failed_calls (trace_of (monitor_loop two_minutes with_dbus refused_then_idle initial)) /\
  failed_calls (trace_of (monitor_loop two_minutes with_dbus refused_then_idle initial)) =
  2%nat.
Proof.
  assert (F : Forall (fun t => fault t = None) refused_then_idle).
  { repeat constructor. }
  split; [exact F|]. split; [|reflexivity].
  exact (failed_calls_are_logged two_minutes with_dbus refused_then_idle initial F).
Defined.

(** ** What the loop writes *)

Lemma iteration_writes_known_lines cfg env t s :
  Forall known_line (log_lines (trace_of (iteration cfg env t s))).
Proof.
  open_tick cfg env t s. unfold_tick.
  split_tick;
    repeat (first [apply Forall_nil | apply Forall_cons]);
    unfold known_line;
    first [ left; reflexivity
          | right; left; reflexivity
          | right; right; left; reflexivity
          | right; right; right; eexists; reflexivity ].
Qed.

(** X7.  Whatever the ticks bring, every line the loop writes is one of
    four: the idle warning, the failed-simulation error, the periodic
    status warning, or a "Monitor error: ..." error; a change to the active
    state never reaches the log. *)
Theorem loop_writes_known_lines cfg env ticks s :
  Forall known_line (log_lines (trace_of (monitor_loop cfg env ticks s))).
Proof.
  revert s. induction ticks as [|t ticks IH]; intros s; [constructor|].
  rewrite trace_of_monitor_loop_cons, log_lines_app. apply Forall_app. split.
  - apply iteration_writes_known_lines.
  - destruct (running (iteration cfg env t s)); [apply IH | constructor].
Qed.

Lemma calls_only_on_idle_ticks_witness :
  session_bus (mkEnvironment true true false) = false /\
  simulate_calls
    (trace_of (monitor_loop two_minutes (mkEnvironment true true false)
                 (idle_tick 0 :: continuous_idle) initial)) = [].
Proof.
  split; [reflexivity|].
  exact (proj2 (proj2 (calls_only_on_idle_ticks two_minutes (mkEnvironment true true false)
                         (idle_tick 0 :: continuous_idle) initial)) eq_refl).
Defined.

(** ** Without D-Bus *)





(** ** A delay of zero or less *)

Lemma nonpositive_delay_passes_check (sam : Z) (now x : Q) :
  sam <= 0 -> (x <= now)%Q ->
  Qle_bool (inject_Z sam) ((now - x) / 60) = true.
Proof.
  intros Hs Hx. apply Qle_bool_iff.
  apply Qle_trans with 0%Q.
  - unfold Qle; cbn. lia.
  - apply Qle_shift_div_l; [reflexivity|]. lra.
Qed.

(** A quiet tick under a delay of zero or less, at a clock no earlier than
    the start of the idle period: the loop goes on, a call is made exactly
    when the sample is idle, and the idle period, if any, begins at the
    clock of the tick or where it began. *)
Lemma nonpositive_delay_tick cfg env t s :
  simulate_after_minutes cfg <= 0 ->
  simulate_activity cfg = true ->
  session_bus env = true ->
  quiet t ->
  idle_hint_reply t <> Interrupts ->
  (forall x, idle_since s = Some x -> (x <= time_time t)%Q) ->
  running (iteration cfg env t s) = true /\
  List.length (simulate_calls (trace_of (iteration cfg env t s))) =
    (if match sample env t with Some true => true | _ => false end then 1 else 0)%nat /\
  (forall x, idle_since (state_of (iteration cfg env t s)) = Some x ->
             x = time_time t \/ idle_since s = Some x).
Proof.
  intros Hd Ha Hb (F & NS & Sl) NQ Hx. open_tick cfg env t s. subst.
  unfold sample; cbn.
  assert (C : forall x, since = Some x ->
                        Qle_bool (inject_Z sam) ((now - x) / 60) = true).
  { intros x E. apply nonpositive_delay_passes_check; auto. }
  assert (C' : Qle_bool (inject_Z sam) ((now - now) / 60) = true).
  { apply nonpositive_delay_passes_check; auto. apply Qle_refl. }
  unfold_tick.
  destruct sysbus, dbus, hint as [[|] | |], since as [x|], last as [[|]|],
    sim as [[]| |]; cbn;
    try (exfalso; apply NQ; reflexivity);
    try (exfalso; apply NS; reflexivity);
    try rewrite (C _ eq_refl); try rewrite C'; cbn; split_tick;
    (split; [reflexivity|]); (split; [reflexivity|]);
    intros y E; first [discriminate E | injection E as <-; auto].
Qed.

Lemma nonpositive_delay_loop cfg env ticks :
  simulate_after_minutes cfg <= 0 ->
  simulate_activity cfg = true ->
  session_bus env = true ->
  forall s,
    Forall quiet ticks ->
    Forall (fun t => idle_hint_reply t <> Interrupts) ticks ->
    StronglySorted Qle (map time_time ticks) ->
    (forall x, idle_since s = Some x -> Forall (fun t => (x <= time_time t)%Q) ticks) ->
    List.length (simulate_calls (trace_of (monitor_loop cfg env ticks s))) =
    List.length (filter (fun t => match sample env t with Some true => true | _ => false end)
                        ticks).
Proof.
  intros Hd Ha Hb.
  induction ticks as [|t ticks IH]; intros s Q NQ S Hx; [reflexivity|].
  apply Forall_cons_iff in Q as [Qt Q].
  apply Forall_cons_iff in NQ as [NQt NQ].
  cbn [map] in S. apply StronglySorted_inv in S as [S St].
  assert (Hx0 : forall x, idle_since s = Some x -> (x <= time_time t)%Q).
  { intros x E. exact (Forall_inv (Hx x E)). }
  destruct (nonpositive_delay_tick cfg env t s Hd Ha Hb Qt NQt Hx0) as (R & N & O).
  rewrite trace_of_monitor_loop_cons, simulate_calls_app, length_app, R, N.
  rewrite (IH _ Q NQ S).
  - cbn [filter]. destruct (sample env t) as [[|]|]; reflexivity.
  - intros x E. destruct (O x E) as [-> | E'].
    + apply Forall_forall. intros t' I'.
      apply (proj1 (Forall_forall _ _) St). now apply in_map.
    + exact (Forall_inv_tail (Hx x E')).
Qed.

(** X9.  A [simulate_after_minutes] of zero or less is taken as it is: with
    simulation on and a session bus, on quiet ticks whose clock does not go
    back, [simulate_user_activity_session] is called on every tick whose
    sample is idle, the first one included. *)
Theorem nonpositive_delay_calls_on_every_idle_tick cfg env ticks :
  simulate_after_minutes cfg <= 0 ->
  simulate_activity cfg = true ->
  session_bus env = true ->
  Forall quiet ticks ->
  Forall (fun t => idle_hint_reply t <> Interrupts) ticks ->
  StronglySorted Qle (map time_time ticks) ->
  List.length (simulate_calls (trace_of (monitor_loop cfg env ticks initial))) =
  List.length (filter (fun t => match sample env t with Some true => true | _ => false end)
                      ticks).
Proof.
  intros Hd Ha Hb Q NQ S.
  apply nonpositive_delay_loop; auto.
  intros x E. discriminate E.
Qed.

Lemma nonpositive_delay_calls_on_every_idle_tick_witness :
  simulate_after_minutes (mkConfiguration 10 0 true) <= 0 /\
  simulate_activity (mkConfiguration 10 0 true) = true /\
  session_bus with_dbus = true /\
  Forall quiet seven_ticks /\
  Forall (fun t => idle_hint_reply t <> Interrupts) seven_ticks /\
  StronglySorted Qle (map time_time seven_ticks) /\
  List.length (simulate_calls
                 (trace_of (monitor_loop (mkConfiguration 10 0 true) with_dbus
                              seven_ticks initial))) = 4%nat.
Proof.
  assert (Q : Forall quiet seven_ticks).
  { repeat constructor; discriminate. }
  assert (NQ : Forall (fun t => idle_hint_reply t <> Interrupts) seven_ticks).
  { repeat constructor; discriminate. }
  assert (S : StronglySorted Qle (map time_time seven_ticks)).
  { repeat constructor; discriminate. }
  assert (D : simulate_after_minutes (mkConfiguration 10 0 true) <= 0).
  { cbn. lia. }
  split; [exact D|]. split; [reflexivity|]. split; [reflexivity|].
  split; [exact Q|]. split; [exact NQ|]. split; [exact S|].
  exact (nonpositive_delay_calls_on_every_idle_tick (mkConfiguration 10 0 true)
           with_dbus seven_ticks D eq_refl eq_refl Q NQ S).
Defined.

(** ** Failed polls between samples *)

(** A quiet tick whose query is not cancelled: the loop goes on, the state
    last reported is the most recent sample, and the idle line is written
    exactly when the tick samples idle and idle was not reported before. *)
Lemma quiet_tick_sample cfg env t s :
  quiet t ->
  idle_hint_reply t <> Interrupts ->
  running (iteration cfg env t s) = true /\
  last_idle_state (state_of (iteration cfg env t s)) = newer env (last_idle_state s) t /\
  idle_transitions (trace_of (iteration cfg env t s)) =
    match sample env t with
    | Some true => if reported_idle s then 0%nat else 1%nat
    | _ => 0%nat
    end.
Proof.
  intros (F & NS & Sl) NQ. open_tick cfg env t s. subst.
  unfold newer, sample, reported_idle, idle_transitions; cbn.
  unfold_tick.
  destruct sysbus, dbus, hint as [[|] | |]; cbn;
    try (exfalso; apply NQ; reflexivity);
    split_tick; try (exfalso; apply NS; reflexivity); auto.
Qed.

Lemma quiet_loop_sample cfg env ticks :
  forall s,
    Forall quiet ticks ->
    Forall (fun t => idle_hint_reply t <> Interrupts) ticks ->
    last_idle_state (state_of (monitor_loop cfg env ticks s)) =
      fold_left (newer env) ticks (last_idle_state s) /\
    idle_transitions (trace_of (monitor_loop cfg env ticks s)) =
      runs_after (reported_idle s) (observed env ticks).
Proof.
  induction ticks as [|t ticks IH]; intros s Q NQ; [split; reflexivity|].
  apply Forall_cons_iff in Q as [Qt Q].
  apply Forall_cons_iff in NQ as [NQt NQ].
  destruct (quiet_tick_sample cfg env t s Qt NQt) as (R & L & N).
  destruct (IH (state_of (iteration cfg env t s)) Q NQ) as [IL IN].
  rewrite state_of_monitor_loop_step, trace_of_monitor_loop_cons,
    idle_transitions_app, R, N, IL, IN, L.
  split; [reflexivity|].
  unfold observed; cbn [flat_map]. fold (observed env ticks).
  unfold reported_idle at 2. rewrite L. unfold newer.
  destruct (sample env t) as [[|]|]; cbn [app runs_after andb negb Nat.add].
  - destruct (reported_idle s); reflexivity.
  - reflexivity.
  - reflexivity.
Qed.

(** X20.  Failed polls are transparent for the idle line: on quiet ticks
    whose queries are not cancelled, whether each query gives a sample or
    fails, the number of idle lines written from the initial state is the
    number of maximal runs of idle among the samples that were given. *)
Theorem failed_polls_do_not_break_runs cfg env ticks :
  Forall quiet ticks ->
  Forall (fun t => idle_hint_reply t <> Interrupts) ticks ->
  idle_transitions (trace_of (monitor_loop cfg env ticks initial)) =
  idle_runs (observed env ticks).
Proof.
  intros Q NQ. exact (proj2 (quiet_loop_sample cfg env ticks initial Q NQ)).
Qed.

Lemma failed_polls_do_not_break_runs_witness :
  Forall quiet idle_with_gaps /\
  Forall (fun t => idle_hint_reply t <> Interrupts) idle_with_gaps /\
  idle_transitions (trace_of (monitor_loop two_minutes with_dbus idle_with_gaps initial)) =
  idle_runs (observed with_dbus idle_with_gaps) /\
  idle_runs (observed with_dbus idle_with_gaps) = 2%nat.
Proof.
  assert (Q : Forall quiet idle_with_gaps).
  { repeat constructor; discriminate. }
  assert (NQ : Forall (fun t => idle_hint_reply t <> Interrupts) idle_with_gaps).
  { repeat constructor; discriminate. }
  split; [exact Q|]. split; [exact NQ|]. split; [|reflexivity].
  exact (failed_polls_do_not_break_runs two_minutes with_dbus idle_with_gaps Q NQ).
Defined.

(** X21.  On quiet ticks whose queries are not cancelled,
    [last_idle_state] after a run from the initial state is the most recent
    sample, and is unset only while no query has given one. *)
Theorem last_idle_state_is_last_sample cfg env ticks :
  Forall quiet ticks ->
  Forall (fun t => idle_hint_reply t <> Interrupts) ticks ->
  last_idle_state (state_of (monitor_loop cfg env ticks initial)) = last_sample env ticks.
Proof.
  intros Q NQ. exact (proj1 (quiet_loop_sample cfg env ticks initial Q NQ)).
Qed.

Lemma last_idle_state_is_last_sample_witness :
  Forall quiet idle_with_gaps /\
  Forall (fun t => idle_hint_reply t <> Interrupts) idle_with_gaps /\
  last_idle_state (state_of (monitor_loop two_minutes with_dbus idle_with_gaps initial)) =
  last_sample with_dbus idle_with_gaps /\
  last_sample with_dbus idle_with_gaps = Some true.
Proof.
  assert (Q : Forall quiet idle_with_gaps).
  { repeat constructor; discriminate. }
  assert (NQ : Forall (fun t => idle_hint_reply t <> Interrupts) idle_with_gaps).
  { repeat constructor; discriminate. }
  split; [exact Q|]. split; [exact NQ|]. split; [|reflexivity].
  exact (last_idle_state_is_last_sample two_minutes with_dbus idle_with_gaps Q NQ).
Defined.

(** * Further properties of the configuration *)

Lemma dict_get_absent (d : list (string * json)) (key : string) (default : json) :
  ~ In key (keys d) -> dict_get d key default = default.
Proof.
  induction d as [|[k v] d IH]; intros N; [reflexivity|].
  cbn in N |- *. destruct (String.eqb_spec k key) as [E|E].
  - exfalso. apply N. left. exact E.
  - apply IH. intros I. apply N. right. exact I.
Qed.

Lemma dict_get_present (d : list (string * json)) (key : string) (v default : json) :
  NoDup (keys d) -> In (key, v) d -> dict_get d key default = v.
Proof.
  induction d as [|[k w] d IH]; intros U I; [destruct I|].
  cbn in U |- *. apply NoDup_cons_iff in U as [Uk U].
  destruct I as [E | I].
  - injection E as -> ->. now rewrite String.eqb_refl.
  - destruct (String.eqb_spec k key) as [E|E]; [|now apply IH].
    exfalso. apply Uk. subst k. change key with (fst (key, v)).
    now apply in_map.
Qed.

(** X10.  A key that the configuration object does not have takes its
    default by itself, whatever the other keys hold: 10 for
    [idle_minutes], 5 for [simulate_after_minutes], [False] for
    [simulate_activity]; and an object without the two integer keys is
    always read. *)
Theorem absent_keys_take_defaults
    (int_of_string : string -> option Z) (d : list (string * json)) :
  (~ In "idle_minutes"%string (keys d) ->
   ~ In "simulate_after_minutes"%string (keys d) ->
   exists c, read_settings int_of_string (JObject d) = Some c) /\
  (forall c,
      read_settings int_of_string (JObject d) = Some c ->
      (~ In "idle_minutes"%string (keys d) -> idle_minutes c = 10) /\
      (~ In "simulate_after_minutes"%string (keys d) -> simulate_after_minutes c = 5) /\
      (~ In "simulate_activity"%string (keys d) -> simulate_activity c = false)).
Proof.
  split.
  - intros N1 N2. unfold read_settings.
    rewrite (dict_get_absent d _ _ N1), (dict_get_absent d _ _ N2). cbn. eauto.
  - intros c R. unfold read_settings in R.
    destruct (py_int int_of_string (dict_get d "idle_minutes" (JInt 10))) as [im|] eqn:E1;
      [|discriminate R].
    destruct (py_int int_of_string (dict_get d "simulate_after_minutes" (JInt 5)))
      as [sam|] eqn:E2; [|discriminate R].
    injection R as <-. cbn. repeat split; intros N.
    + rewrite (dict_get_absent d _ _ N) in E1. cbn in E1. congruence.
    + rewrite (dict_get_absent d _ _ N) in E2. cbn in E2. congruence.
    + now rewrite (dict_get_absent d _ _ N).
Qed.

Lemma absent_keys_take_defaults_witness :
  ~ In "idle_minutes"%string (keys [("simulate_after_minutes"%string, JInt 1)]) /\
  read_settings (fun _ => None) (JObject [("simulate_after_minutes"%string, JInt 1)]) =
    Some (mkConfiguration 10 1 false) /\
  idle_minutes (mkConfiguration 10 1 false) = 10.
Proof.
  assert (N : ~ In "idle_minutes"%string (keys [("simulate_after_minutes"%string, JInt 1)])).
  { cbn. intros [E|[]]. discriminate E. }
  split; [exact N|]. split; [reflexivity|].
  exact (proj1 (proj2 (absent_keys_take_defaults (fun _ => None)
                         [("simulate_after_minutes"%string, JInt 1)])
                  (mkConfiguration 10 1 false) eq_refl) N).
Defined.

(** X11.  A configuration file whose text parses to an object that gives
    the three keys an integer, an integer and a boolean is read as exactly
    those values, wherever the keys stand in the object and whatever other
    keys it has. *)
Theorem explicit_settings_are_read_back
    (json_loads : string -> option json) (int_of_string : string -> option Z)
    (text : string) (d : list (string * json)) (a b : Z) (c : bool) :
  json_loads text = Some (JObject d) ->
  NoDup (keys d) ->
  In ("idle_minutes"%string, JInt a) d ->
  In ("simulate_after_minutes"%string, JInt b) d ->
  In ("simulate_activity"%string, JBool c) d ->
  load_config json_loads (Content text) = Some (JObject d) /\
  read_settings int_of_string (JObject d) = Some (mkConfiguration a b c).
Proof.
  intros L U Ia Ib Ic. unfold load_config; cbn. rewrite L.
  split; [reflexivity|].
  unfold read_settings.
  rewrite (dict_get_present d _ _ _ U Ia), (dict_get_present d _ _ _ U Ib),
    (dict_get_present d _ _ _ U Ic).
  reflexivity.
Qed.

Lemma explicit_settings_are_read_back_witness :
  one_object "x"%string = Some (JObject written_settings) /\
  NoDup (keys written_settings) /\
  load_config one_object (Content "x"%string) = Some (JObject written_settings) /\
  read_settings (fun _ => None) (JObject written_settings) =
    Some (mkConfiguration 3 1 true).
Proof.
  assert (U : NoDup (keys written_settings)).
  { cbn. repeat constructor; cbn; intuition discriminate. }
  split; [reflexivity|]. split; [exact U|].
  refine (explicit_settings_are_read_back one_object (fun _ => None) "x"%string
            written_settings 3 1 true eq_refl U _ _ _); cbn; auto.
Defined.

(** X12.  [simulate_activity] is read by truthiness: given as a string
    that is not empty, the text [false] included, it turns simulation
    on. *)
Theorem string_turns_simulation_on
    (int_of_string : string -> option Z) (d : list (string * json))
    (text : string) (c : Configuration) :
  NoDup (keys d) ->
  In ("simulate_activity"%string, JString text) d ->
  text <> EmptyString ->
  read_settings int_of_string (JObject d) = Some c ->
  simulate_activity c = true.
Proof.
  intros U I N R. unfold read_settings in R.
  destruct (py_int int_of_string (dict_get d "idle_minutes" (JInt 10))); [|discriminate R].
  destruct (py_int int_of_string (dict_get d "simulate_after_minutes" (JInt 5)));
    [|discriminate R].
  injection R as <-. cbn. rewrite (dict_get_present d _ _ _ U I). cbn.
  destruct (String.eqb_spec text EmptyString); [contradiction|reflexivity].
Qed.

Lemma string_turns_simulation_on_witness :
  NoDup (keys [("simulate_activity"%string, JString "false")]) /\
  "false"%string <> EmptyString /\
  read_settings (fun _ => None) (JObject [("simulate_activity"%string, JString "false")]) =
    Some (mkConfiguration 10 5 true) /\
  simulate_activity (mkConfiguration 10 5 true) = true.
Proof.
  assert (U : NoDup (keys [("simulate_activity"%string, JString "false")])).
  { cbn. repeat constructor. intros []. }
  assert (N : "false"%string <> EmptyString) by discriminate.
  split; [exact U|]. split; [exact N|]. split; [reflexivity|].
  exact (string_turns_simulation_on (fun _ => None)
           [("simulate_activity"%string, JString "false")] "false"%string
           (mkConfiguration 10 5 true) U (or_introl eq_refl) N eq_refl).
Defined.

(** X13.  A configuration file that holds valid JSON other than an object
    (a list, a number, a string, null) is handed on by [load_config] as it
    is, and [monitor] raises on it before the loop: no bus is connected, no
    line is logged and no tick is run. *)
Theorem non_object_config_stops_monitor
    (json_loads : string -> option json) (int_of_string : string -> option Z)
    (text : string) (v : json) (dbus_available : bool) (conn : connection)
    (ticks : list tick) :
  json_loads text = Some v ->
  (forall d, v <> JObject d) ->
  load_config json_loads (Content text) = Some v /\
  monitor json_loads int_of_string (Content text) dbus_available conn ticks =
    StartupRaises.
Proof.
  intros L N. unfold monitor, load_config; cbn. rewrite L. split; [reflexivity|].
  destruct v; try reflexivity. now elim (N d).
Qed.

Lemma non_object_config_stops_monitor_witness :
  one_object "y"%string = Some (JArray []) /\
  (forall d, JArray [] <> JObject d) /\
  monitor one_object (fun _ => None) (Content "y"%string) true Connects
    (idle_tick 0 :: continuous_idle) = StartupRaises.
Proof.
  assert (N : forall d, JArray [] <> JObject d) by discriminate.
  split; [reflexivity|]. split; [exact N|].
  exact (proj2 (non_object_config_stops_monitor one_object (fun _ => None) "y"%string
                  (JArray []) true Connects (idle_tick 0 :: continuous_idle) eq_refl N)).
Defined.

(** X14.  [idle_minutes] is converted at startup although the loop never
    reads it: a configuration object that gives it null, a list or an
    object makes [monitor] raise before the loop, whatever the other keys
    hold. *)
Theorem unusable_idle_minutes_stops_monitor
    (json_loads : string -> option json) (int_of_string : string -> option Z)
    (text : string) (d : list (string * json)) (v : json)
    (dbus_available : bool) (conn : connection) (ticks : list tick) :
  json_loads text = Some (JObject d) ->
  NoDup (keys d) ->
  In ("idle_minutes"%string, v) d ->
  (v = JNull \/ (exists l, v = JArray l) \/ (exists o, v = JObject o)) ->
  monitor json_loads int_of_string (Content text) dbus_available conn ticks =
    StartupRaises.
Proof.
  intros L U I T. unfold monitor, load_config; cbn. rewrite L.
  unfold read_settings. rewrite (dict_get_present d _ _ _ U I).
  destruct T as [-> | [[l ->] | [o ->]]]; reflexivity.
Qed.

Lemma unusable_idle_minutes_stops_monitor_witness :
  one_object "z"%string = Some (JObject [("idle_minutes"%string, JNull)]) /\
  NoDup (keys [("idle_minutes"%string, JNull)]) /\
  monitor one_object (fun _ => None) (Content "z"%string) true Connects
    (idle_tick 0 :: continuous_idle) = StartupRaises.
Proof.
  assert (U : NoDup (keys [("idle_minutes"%string, JNull)])).
  { cbn. repeat constructor. intros []. }
  split; [reflexivity|]. split; [exact U|].
  exact (unusable_idle_minutes_stops_monitor one_object (fun _ => None) "z"%string
           [("idle_minutes"%string, JNull)] JNull true Connects
           (idle_tick 0 :: continuous_idle) eq_refl U (or_introl eq_refl)
           (or_introl eq_refl)).
Defined.

(** * Properties of [setup_logging] *)

(** X15.  A call of [setup_logging] that succeeds returns the path of
    [session.log] and leaves the logger at level WARNING with exactly the
    handlers it had, or with the one file handler on [session.log] if it
    had none; every line the loop logs passes that level and an INFO line
    does not; and a further call changes nothing and opens no file. *)
Theorem setup_logging_is_idempotent
    (mkdir_ok open_ok : bool) (lg lg1 : logger) (returned : path) :
  setup_logging mkdir_ok open_ok lg = SetUp returned lg1 ->
  returned = log_path /\
  logger_level lg1 = WARNING_ /\
  handlers lg1 =
    match handlers lg with
    | [] => [mkHandler log_path "%(asctime)s %(levelname)s %(message)s"]
    | _ :: _ => handlers lg
    end /\
  (forall lv, enabled lg1 (levelno lv) = true) /\
  enabled lg1 INFO = false /\
  (forall open_ok', setup_logging true open_ok' lg1 = SetUp returned lg1).
Proof.
  destruct lg as [lvl hs]. unfold setup_logging; cbn.
  destruct mkdir_ok; [|discriminate].
  destruct hs as [|h hs]; [destruct open_ok; [|discriminate]|];
    intros E; injection E as <- <-; cbn;
    repeat split; try (intros []; reflexivity); try reflexivity.
Qed.

Lemma setup_logging_is_idempotent_witness :
  setup_logging true false logger_with_handler = SetUp log_path
    (mkLogger WARNING_ (handlers logger_with_handler)) /\
  handlers (mkLogger WARNING_ (handlers logger_with_handler)) =
    handlers logger_with_handler /\
  setup_logging true true fresh_logger =
    SetUp log_path
      (mkLogger WARNING_ [mkHandler log_path "%(asctime)s %(levelname)s %(message)s"]) /\
  forall open_ok',
    setup_logging true open_ok'
      (mkLogger WARNING_ [mkHandler log_path "%(asctime)s %(levelname)s %(message)s"]) =
    SetUp log_path
      (mkLogger WARNING_ [mkHandler log_path "%(asctime)s %(levelname)s %(message)s"]).
Proof.
  split; [reflexivity|].
  split.
  - exact (proj1 (proj2 (proj2
             (setup_logging_is_idempotent true false logger_with_handler _ _ eq_refl)))).
  - split; [reflexivity|].
    exact (proj2 (proj2 (proj2 (proj2 (proj2
             (setup_logging_is_idempotent true true fresh_logger _ _ eq_refl)))))).
Defined.

(** * Properties of [motion-ctl] *)

(** X16.  Whatever its arguments and whatever [systemctl] does,
    [motion-ctl] runs at most one command, and that command is
    [systemctl --user <verb> systemd-motion.service] with the verb its
    first argument, one of the six it knows; with no argument or an unknown
    one it runs nothing and exits with status 1. *)
Theorem control_runs_only_systemctl (argv : list string)
    (spawn : list string -> Control.proc) :
  (Control.ran (Control.main argv spawn) = [] \/
   exists verb,
     nth_error argv 1 = Some verb /\ In verb Control.commands /\
     Control.ran (Control.main argv spawn) =
       [["systemctl"; "--user"; verb; "systemd-motion.service"]%string]) /\
  ((nth_error argv 1 = None \/
    exists command, nth_error argv 1 = Some command /\ ~ In command Control.commands) ->
   Control.ran (Control.main argv spawn) = [] /\
   Control.ended (Control.main argv spawn) = Control.SysExit 1).
Proof.
  destruct argv as [|prog [|command rest]].
  - split; [left; reflexivity|]. intros _. split; reflexivity.
  - split; [left; reflexivity|]. intros _. split; reflexivity.
  - cbn [nth_error]. unfold Control.main, Control.run_checked, Control.commands.
    cbv zeta beta.
    destruct (String.eqb_spec command "start") as [->|N1];
      [|destruct (String.eqb_spec command "stop") as [->|N2];
        [|destruct (String.eqb_spec command "restart") as [->|N3];
          [|destruct (String.eqb_spec command "status") as [->|N4];
            [|destruct (String.eqb_spec command "enable") as [->|N5];
              [|destruct (String.eqb_spec command "disable") as [->|N6]]]]]].
    7: { split; [left; reflexivity|]. intros _. split; reflexivity. }
    all: cbv iota; split;
      [ right; eexists; split; [reflexivity|]; split; [cbn; auto 10|];
        match goal with
        | |- context [match ?x with _ => _ end] =>
            match type of x with
            | Control.proc => destruct x as [rc|]; [try destruct (rc =? 0)|]
            end
        end; reflexivity
      | intros [E | (c & E & N)]; [discriminate E|];
        injection E as <-; exfalso; apply N; cbn; auto 10 ].
Qed.

Lemma control_runs_only_systemctl_witness :
  (exists command, nth_error ["motion-ctl"; "reload"]%string 1 = Some command /\
                   ~ In command Control.commands) /\
  Control.ran (Control.main ["motion-ctl"; "reload"]%string (Control.exits_with 0)) = [] /\
  Control.ended (Control.main ["motion-ctl"; "reload"]%string (Control.exits_with 0)) =
    Control.SysExit 1.
Proof.
  assert (H : exists command, nth_error ["motion-ctl"; "reload"]%string 1 = Some command /\
                              ~ In command Control.commands).
  { exists "reload"%string. split; [reflexivity|].
    cbn. intuition discriminate. }
  split; [exact H|].
  exact (proj2 (control_runs_only_systemctl ["motion-ctl"; "reload"]%string
                  (Control.exits_with 0)) (or_intror H)).
Defined.

(** X17.  When [systemctl] runs and exits with a status, [motion-ctl
    status] ends with status 0 and prints nothing whatever that status is,
    while the five other commands end with status 0 and their message
    exactly when [systemctl] exited with 0, and otherwise print the error
    and exit with 1. *)
Theorem control_exit_status (prog verb : string) (rest : list string)
    (spawn : list string -> Control.proc) (returncode : Z) :
  In verb Control.commands ->
  spawn ["systemctl"; "--user"; verb; "systemd-motion.service"]%string =
    Control.Exits returncode ->
  (verb = "status"%string ->
   Control.ended (Control.main (prog :: verb :: rest) spawn) = Control.Returned /\
   Control.printed (Control.main (prog :: verb :: rest) spawn) = []) /\
  (verb <> "status"%string ->
   (Control.ended (Control.main (prog :: verb :: rest) spawn) = Control.Returned <->
    returncode = 0) /\
   (returncode = 0 ->
    exists done, Control.printed (Control.main (prog :: verb :: rest) spawn) =
                 [Control.Text done]) /\
   (returncode <> 0 ->
    Control.ended (Control.main (prog :: verb :: rest) spawn) = Control.SysExit 1 /\
    Control.printed (Control.main (prog :: verb :: rest) spawn) =
      [Control.ErrorOf ["systemctl"; "--user"; verb; "systemd-motion.service"]%string
         returncode])).
Proof.
  intros I R. cbn in I.
  destruct I as [<-|[<-|[<-|[<-|[<-|[<-|[]]]]]]];
    unfold Control.main, Control.run_checked, Control.service_name in *; cbn;
    rewrite R;
    (split; [intros E; first [discriminate E | split; reflexivity]
            |intros N; first [now elim N |
               destruct (Z.eqb_spec returncode 0) as [Z0|Z0]; cbn;
               repeat split; intros; try congruence; try discriminate; eauto]]).
Qed.

Lemma control_exit_status_witness :
  In "status"%string Control.commands /\
  Control.exits_with 3 ["systemctl"; "--user"; "status"; "systemd-motion.service"]%string =
    Control.Exits 3 /\
  Control.ended (Control.main ["motion-ctl"; "status"]%string (Control.exits_with 3)) =
    Control.Returned /\
  Control.printed (Control.main ["motion-ctl"; "status"]%string (Control.exits_with 3)) = [].
Proof.
  assert (I : In "status"%string Control.commands) by (cbn; auto 10).
  split; [exact I|]. split; [reflexivity|].
  exact (proj1 (control_exit_status "motion-ctl"%string "status"%string []
                  (Control.exits_with 3) 3 I eq_refl) eq_refl).
Defined.

(** * Properties of the configuration file of the settings window *)

(** X18.  What the settings window saves it loads back: after a
    [save_config] that succeeds, [load_config] of the window returns the
    configuration saved, provided [json.loads] reads back what
    [json.dumps] wrote. *)
Theorem gui_settings_round_trip
    (json_loads : string -> option json) (json_dumps : json -> string)
    (writable : bool) (config : json) (fs fs' : files) :
  json_loads (json_dumps config) = Some config ->
  Gui.save_config json_dumps writable config fs = Some fs' ->
  Gui.load_config json_loads fs' = Some config.
Proof.
  intros RT S. unfold Gui.save_config in S.
  destruct writable; [|discriminate S]. injection S as <-.
  unfold Gui.load_config, write_text. cbn. now rewrite RT.
Qed.

Lemma gui_settings_round_trip_witness :
  one_object ((fun _ => "x"%string) (JObject written_settings)) =
    Some (JObject written_settings) /\
  Gui.save_config (fun _ => "x"%string) true (JObject written_settings) no_files =
    Some (write_text no_files Gui.config_path "x") /\
  Gui.load_config one_object (write_text no_files Gui.config_path "x") =
    Some (JObject written_settings).
Proof.
  split; [reflexivity|]. split; [reflexivity|].
  exact (gui_settings_round_trip one_object (fun _ => "x"%string) true
           (JObject written_settings) no_files _ eq_refl eq_refl).
Defined.

(** X19.  The settings window saves to [.config/systemd-user/behavior.json]
    and the monitor reads [.config/systemd-motion/behavior.json]: whatever
    the window saves, [load_config] of [core.py] returns what it returned
    before. *)
Theorem gui_settings_do_not_reach_monitor
    (json_loads : string -> option json) (json_dumps : json -> string)
    (writable : bool) (config : json) (fs fs' : files) :
  Gui.save_config json_dumps writable config fs = Some fs' ->
  load_config json_loads (fs' config_path) = load_config json_loads (fs config_path).
Proof.
  intros S. unfold Gui.save_config in S.
  destruct writable; [|discriminate S]. injection S as <-.
  reflexivity.
Qed.

Lemma gui_settings_do_not_reach_monitor_witness :
  Gui.save_config (fun _ => "x"%string) true (JObject written_settings) no_files =
    Some (write_text no_files Gui.config_path "x") /\
  load_config one_object (write_text no_files Gui.config_path "x" config_path) =
    load_config one_object (no_files config_path).
Proof.
  split; [reflexivity|].
  exact (gui_settings_do_not_reach_monitor one_object (fun _ => "x"%string) true
           (JObject written_settings) no_files _ eq_refl).
Defined.
